(** * action_ws: pick_and_place and tacbot demo nodes

    A shallow embedding of the three source files of the workspace:
    - [pick_and_place/include/manipulability_measures.h]
    - [pick_and_place/src/pick_and_place_node.cpp]
    - [tacbot/src/plan_and_execute.cpp]

    C++ [double] is Rocq's primitive binary64 [float]; [std::size_t] and
    [Eigen::Index] are [Z] with the conversion between them written out;
    a call into ROS, MoveIt or another collaborator that is not part of the
    workspace is an event appended to a log, and what the collaborator
    answers is a field of an environment record the programs are run in. *)

From Stdlib Require Import ZArith List Bool String Lia PrimFloat.
Import ListNotations.
Set Warnings "-inexact-float".
Local Open Scope Z_scope.

(** ** Option as the error monad of partial C++ operations *)

Definition obind {A B : Type} (o : option A) (k : A -> option B) : option B :=
  match o with
  | Some a => k a
  | None => None
  end.

Notation "'do' x <- o ; k" := (obind o (fun x => k))
  (at level 10, x name, o at level 100, k at level 200).

(** ** Eigen: dynamic matrices of doubles *)

Module Eigen.

(** [Eigen::Index] is [std::ptrdiff_t]: 64 bits, signed. *)
Definition Index_max : Z := 2 ^ 63.

(** [std::size_t] is 64 bits, unsigned. *)
Definition size_t_max : Z := 2 ^ 64.

(** The implicit conversion of a [std::size_t] argument to [Eigen::Index]:
    values from [2^63] on wrap to negative numbers. *)
Definition to_Index (i : Z) : Z :=
  if i <? Index_max then i else i - size_t_max.

(** [Eigen::MatrixXd]: the run-time dimensions and the coefficients,
    stored column after column (Eigen's default storage order). *)
Record MatrixXd : Type := mkMatrixXd {
  m_rows : Z;
  m_cols : Z;
  m_data : list float
}.

(** The default constructor allocates nothing: a 0 x 0 matrix. *)
Definition MatrixXd_default : MatrixXd := mkMatrixXd 0 0 [].

(** What every matrix built by Eigen satisfies. *)
Definition wf (m : MatrixXd) : Prop :=
  0 <= m_rows m /\ 0 <= m_cols m /\ m_cols m < Index_max /\
  Z.of_nat (List.length (m_data m)) = m_rows m * m_cols m.

Definition in_range (m : MatrixXd) (row col : Z) : bool :=
  (0 <=? row) && (row <? m_rows m) && (0 <=? col) && (col <? m_cols m).

(** [operator()(row, col)]: the coefficient at [row + col * rows] of the
    storage. Outside the dimensions the access is not defined (Eigen
    asserts there in a debug build and reads whatever the address holds
    otherwise): [None]. *)
Definition coeff (m : MatrixXd) (row col : Z) : option float :=
  if in_range m row col
  then nth_error (m_data m) (Z.to_nat (row + col * m_rows m))
  else None.

(** Column [col] of the matrix, top to bottom. *)
Definition column (m : MatrixXd) (col : Z) : list float :=
  firstn (Z.to_nat (m_rows m)) (skipn (Z.to_nat (col * m_rows m)) (m_data m)).

(** [Eigen::Vector3d], built by its three-scalar constructor. *)
Record Vector3d : Type := mkVector3d {
  v_x : float;
  v_y : float;
  v_z : float
}.

End Eigen.

(** ** manipulability_measures.h *)

Module ManipulabilityMeasures.
Import Eigen.

Record t : Type := mk {
  eigen_values : MatrixXd;
  eigen_vectors : MatrixXd;
  pass : bool
}.

(** The implicit default constructor: two empty matrices, and the member
    initialiser [pass = false]. *)
Definition default : t := mk MatrixXd_default MatrixXd_default false.

(** [getVector] is a non-const member: it returns the vector together
    with the object as the call leaves it. *)
Definition getVector (self : t) (i : Z) : option (Vector3d * t) :=
  do a <- coeff (eigen_vectors self) 0 (to_Index i);
  do b <- coeff (eigen_vectors self) 1 (to_Index i);
  do c <- coeff (eigen_vectors self) 2 (to_Index i);
  Some (mkVector3d a b c, self).

(** An object as an analysis would fill it: eigenvalues 9, 5, 1 and a
    3 x 3 matrix whose columns are (1,2,3), (4,5,6) and (7,8,9). *)
Definition sample : t :=
  mk (mkMatrixXd 3 1 [9; 5; 1]%float)
     (mkMatrixXd 3 3 [1; 2; 3; 4; 5; 6; 7; 8; 9]%float)
     true.

End ManipulabilityMeasures.

(** ** Messages of ROS and MoveIt, as far as the two programs use them *)

Module Msgs.

(** [geometry_msgs::PoseStamped]. *)
Record Point : Type := mkPoint { p_x : float; p_y : float; p_z : float }.
Record Quaternion : Type :=
  mkQuaternion { q_x : float; q_y : float; q_z : float; q_w : float }.
Record Pose : Type := mkPose { position : Point; orientation : Quaternion }.
Record PoseStamped : Type := mkPoseStamped { frame_id : string; pose : Pose }.

(** [moveit_msgs::Constraints]. Neither program looks inside one: it is
    what a goal constructor handed back, kept as the call that built it. *)
Inductive Constraints : Type :=
| constructGoalConstraints (link_name : string) (pose : PoseStamped)
    (tolerance_pos tolerance_angle : list float)
| jointGoal (joint_names : list string) (joint_values : list float).

(** [sensor_msgs::JointState] inside [moveit_msgs::RobotState]. *)
Record RobotState : Type := mkRobotState {
  js_name : list string;
  js_position : list float;
  js_velocity : list float;
  js_effort : list float
}.

Definition RobotState_default : RobotState := mkRobotState [] [] [] [].

(** [trajectory_msgs::JointTrajectoryPoint] and [JointTrajectory]. *)
Record JointTrajectoryPoint : Type := mkJointTrajectoryPoint {
  positions : list float;
  velocities : list float;
  accelerations : list float;
  effort : list float
}.

Record JointTrajectory : Type := mkJointTrajectory {
  joint_names : list string;
  points : list JointTrajectoryPoint
}.

(** [moveit_msgs::RobotTrajectory]. *)
Record RobotTrajectory : Type := mkRobotTrajectory {
  joint_trajectory : JointTrajectory
}.

Definition RobotTrajectory_default : RobotTrajectory :=
  mkRobotTrajectory (mkJointTrajectory [] []).

(** [planning_interface::MotionPlanRequest]
    (that is [moveit_msgs::MotionPlanRequest]). *)
Record MotionPlanRequest : Type := mkMotionPlanRequest {
  start_state : RobotState;
  goal_constraints : list Constraints;
  planner_id : string;
  group_name : string;
  allowed_planning_time : float;
  max_velocity_scaling_factor : float;
  max_acceleration_scaling_factor : float
}.

(** A freshly declared request: empty strings and sequences, zeros. *)
Definition MotionPlanRequest_default : MotionPlanRequest :=
  mkMotionPlanRequest RobotState_default [] EmptyString EmptyString
                      0%float 0%float 0%float.

Definition set_group_name (s : string) (r : MotionPlanRequest) :=
  mkMotionPlanRequest (start_state r) (goal_constraints r) (planner_id r) s
    (allowed_planning_time r) (max_velocity_scaling_factor r)
    (max_acceleration_scaling_factor r).

Definition set_allowed_planning_time (t : float) (r : MotionPlanRequest) :=
  mkMotionPlanRequest (start_state r) (goal_constraints r) (planner_id r)
    (group_name r) t (max_velocity_scaling_factor r)
    (max_acceleration_scaling_factor r).

Definition set_planner_id (s : string) (r : MotionPlanRequest) :=
  mkMotionPlanRequest (start_state r) (goal_constraints r) s (group_name r)
    (allowed_planning_time r) (max_velocity_scaling_factor r)
    (max_acceleration_scaling_factor r).

Definition set_max_acceleration_scaling_factor (f : float)
           (r : MotionPlanRequest) :=
  mkMotionPlanRequest (start_state r) (goal_constraints r) (planner_id r)
    (group_name r) (allowed_planning_time r) (max_velocity_scaling_factor r)
    f.

Definition set_max_velocity_scaling_factor (f : float)
           (r : MotionPlanRequest) :=
  mkMotionPlanRequest (start_state r) (goal_constraints r) (planner_id r)
    (group_name r) (allowed_planning_time r) f
    (max_acceleration_scaling_factor r).

(** [req.goal_constraints.push_back(goal)]. *)
Definition push_goal (goal : Constraints) (r : MotionPlanRequest) :=
  mkMotionPlanRequest (start_state r) (goal_constraints r ++ [goal])
    (planner_id r) (group_name r) (allowed_planning_time r)
    (max_velocity_scaling_factor r) (max_acceleration_scaling_factor r).

(** [moveit_msgs::MoveItErrorCodes]: the [int32] field [val]. *)
Record MoveItErrorCodes : Type := mkErrorCodes { val : Z }.

(** [moveit_msgs::MotionPlanResponse], the message [getMessage] fills. *)
Record MotionPlanResponseMsg : Type := mkMotionPlanResponseMsg {
  trajectory_start : RobotState;
  trajectory : RobotTrajectory
}.

(** [planning_interface::MotionPlanResponse]. *)
Record MotionPlanResponse : Type := mkMotionPlanResponse {
  error_code_ : MoveItErrorCodes;
  start_ : RobotState;
  trajectory_ : RobotTrajectory
}.

Definition MotionPlanResponse_default : MotionPlanResponse :=
  mkMotionPlanResponse (mkErrorCodes 0) RobotState_default
                       RobotTrajectory_default.

Definition getMessage (res : MotionPlanResponse) : MotionPlanResponseMsg :=
  mkMotionPlanResponseMsg (start_ res) (trajectory_ res).

(** [moveit_msgs::DisplayTrajectory]. *)
Record DisplayTrajectory : Type := mkDisplayTrajectory {
  dt_trajectory_start : RobotState;
  dt_trajectory : list RobotTrajectory
}.

Definition DisplayTrajectory_default : DisplayTrajectory :=
  mkDisplayTrajectory RobotState_default [].

End Msgs.

(** ** Execution status *)

Module Execution.

(** Modelled from the spec: [moveit_controller_manager::ExecutionStatus]
    belongs to MoveIt, not to the workspace. Its values are the ones the
    specification's data model enumerates: the two states an execution
    passes through and the four it can end in. *)
Inductive ExecutionStatus : Type :=
| pending | running | succeeded | failed | preempted | timeout.

Definition is_terminal (s : ExecutionStatus) : bool :=
  match s with
  | pending | running => false
  | succeeded | failed | preempted | timeout => true
  end.

Definition asString (s : ExecutionStatus) : string :=
  match s with
  | pending => "PENDING"
  | running => "RUNNING"
  | succeeded => "SUCCEEDED"
  | failed => "FAILED"
  | preempted => "PREEMPTED"
  | timeout => "TIMED_OUT"
  end%string.

(** Modelled from the spec: what the controller backend reports when a
    blocking execution returns (completion, a fault with its diagnostic,
    an external preemption, or the time budget being exceeded). *)
Inductive BackendReport : Type :=
| completion
| fault (diagnostic : string)
| external_preemption
| budget_exceeded.

Definition status_of (r : BackendReport) : ExecutionStatus :=
  match r with
  | completion => succeeded
  | fault _ => failed
  | external_preemption => preempted
  | budget_exceeded => timeout
  end.

End Execution.

(** ** The world the programs run in *)

Module Ros.
Import Eigen Msgs Execution.

Inductive LogLevel : Type := Debug | Info | Error.

(** An argument of a printf-style log call. *)
Inductive LogArg : Type :=
| ArgStr (s : string)
| ArgInt (z : Z).

(** Calls into the visualization side (RViz through MoveItVisualTools
    and a display publisher; tacbot's [Visualizer]). *)
Inductive VisualCall : Type :=
| deleteAllMarkers
| publishDisplayTrajectory (d : DisplayTrajectory)
| publishTrajectoryLine (t : RobotTrajectory)
| trigger
| visualizeGoalState (names : list string) (values : list float)
| visualizeObstacleMarker (obstacles : list Vector3d)
| visualizeTrajectory (msg : MotionPlanResponseMsg) (label : string).

(** Calls into the execution side (MoveIt's trajectory execution
    manager; tacbot's [PandaInterface]). *)
Inductive ExecCall : Type :=
| push (t : RobotTrajectory)
| executeAndWait (result : ExecutionStatus)
| move_to_default_pose
| follow_joint_velocities (joint_velocities : list (list float)).

(** What a run does that the outside can see, in the order it does it. *)
Inductive Event : Type :=
| ESetup (call : string)
| ELog (level : LogLevel) (format : string) (args : list LogArg)
| EStdout (text : string)
| EGetchar
| EPrompt (answer : bool)
| ELockSceneRO
| EUnlockSceneRO
| ECreatePlanningContext (req : MotionPlanRequest)
| EGeneratePlan (req : MotionPlanRequest)
| EVisual (c : VisualCall)
| EGetActiveControllers
| EGetControllersList
| EExec (c : ExecCall).

Record World : Type := mkWorld {
  (** read locks currently held on the planning scene *)
  scene_readers : nat;
  (** trajectories pushed to the execution manager and not yet run *)
  exec_queue : list RobotTrajectory;
  (** the statuses the execution has been through, oldest first *)
  exec_status : list ExecutionStatus;
  (** the events so far, oldest first *)
  log : list Event
}.

(** The world at program start. *)
Definition boot : World := mkWorld 0 [] [] [].

(** *** The state monad of a run *)

Definition M (A : Type) : Type := World -> A * World.

Definition ret {A : Type} (a : A) : M A := fun w => (a, w).

Definition bind {A B : Type} (c : M A) (k : A -> M B) : M B :=
  fun w => let (a, w') := c w in k a w'.

Definition emit (e : Event) : M unit :=
  fun '(mkWorld readers queue status events) =>
    (tt, mkWorld readers queue status (events ++ [e])).

Declare Scope run_scope.
Delimit Scope run_scope with run.
Notation "x <- c ;; k" := (bind c (fun x => k))
  (at level 61, c at next level, right associativity) : run_scope.
Notation "c ;; k" := (bind c (fun _ => k))
  (at level 61, right associativity) : run_scope.

(** A range-based [for] whose body only acts on the world. *)
Fixpoint for_each {A : Type} (l : list A) (body : A -> M unit) : M unit :=
  match l with
  | [] => ret tt
  | a :: l' => bind (body a) (fun _ => for_each l' body)
  end.

Definition endl : string := String (Ascii.ascii_of_nat 10) EmptyString.

(** [LockedPlanningSceneRO]'s constructor and destructor: a shared lock
    on the monitored scene is taken and given back. *)
Definition lock_scene_ro : M unit :=
  fun '(mkWorld readers queue status events) =>
    emit ELockSceneRO (mkWorld (S readers) queue status events).

Definition unlock_scene_ro : M unit :=
  fun '(mkWorld readers queue status events) =>
    emit EUnlockSceneRO (mkWorld (Nat.pred readers) queue status events).

(** Modelled from the spec: the scene follows a multiple-reader,
    single-writer discipline, so an update (the monitor's writer side) can
    go ahead exactly when no reader holds the lock. *)
Definition scene_writable (w : World) : bool :=
  Nat.eqb (scene_readers w) 0.

(** *** The trajectory execution manager *)

(** Modelled from the spec: a new manager has one execution, pending. *)
Definition new_execution_manager : M unit :=
  fun '(mkWorld readers _ _ events) =>
    emit (ESetup "TrajectoryExecutionManager")
         (mkWorld readers [] [pending] events).

(** Modelled from the spec: handing the trajectory to the backend (the
    push) takes the execution from pending to running. *)
Definition exec_push (t : RobotTrajectory) : M unit :=
  fun '(mkWorld readers queue status events) =>
    emit (EExec (push t))
         (mkWorld readers (queue ++ [t]) (status ++ [running]) events).

(** Modelled from the spec: the blocking call returns when the backend
    reports, with the terminal status of that report. *)
Definition exec_executeAndWait
           (backend : list RobotTrajectory -> BackendReport)
  : M ExecutionStatus :=
  fun '(mkWorld readers queue status events) =>
    let s := status_of (backend queue) in
    bind (emit (EExec (executeAndWait s))) (fun _ => ret s)
         (mkWorld readers [] (status ++ [s]) events).

End Ros.

(** ** pick_and_place_node.cpp *)

Module PickAndPlaceNode.
Import Msgs Execution Ros.
Local Open Scope string_scope.
Local Open Scope run_scope.

(** What the collaborators answer during one run. *)
Record Env : Type := mkEnv {
  (** [moveit_msgs::MoveItErrorCodes::SUCCESS] *)
  SUCCESS : Z;
  (** [planning_pipeline->generatePlan] on the locked scene *)
  generatePlan : MotionPlanRequest -> MotionPlanResponse;
  (** [controller_manager->getActiveControllers] *)
  getActiveControllers : list string;
  (** [controller_manager->getControllersList] *)
  getControllersList : list string;
  (** the controller backend behind [executeAndWait] *)
  backend : list RobotTrajectory -> BackendReport
}.

Definition printControllers (env : Env) : M unit :=
  emit EGetActiveControllers ;;
  let active_controllers := getActiveControllers env in
  emit EGetControllersList ;;
  let known_controllers := getControllersList env in
  emit (ELog Info "Active controllers: %ld"
             [ArgInt (Z.of_nat (List.length active_controllers))]) ;;
  for_each active_controllers
    (fun controller => emit (EStdout (controller ++ ", " ++ endl))) ;;
  emit (ELog Info "Known controllers: %ld"
             [ArgInt (Z.of_nat (List.length known_controllers))]) ;;
  for_each known_controllers
    (fun controller => emit (EStdout (controller ++ ", " ++ endl))).

Definition promptAnyInput : M unit :=
  emit (EStdout endl) ;;
  emit (EStdout "Press any key to continue: ") ;;
  emit EGetchar.

(** The braces around the planner call: the read-only lock lives exactly
    as long as the block. *)
Definition locked_generatePlan (env : Env) (req : MotionPlanRequest)
  : M MotionPlanResponse :=
  lock_scene_ro ;;
  emit (EGeneratePlan req) ;;
  let res := generatePlan env req in
  unlock_scene_ro ;;
  ret res.

Definition group_name : string := "panda_arm".

Definition goal_pose : PoseStamped :=
  mkPoseStamped "panda_link0"
    (mkPose (mkPoint 0.5 0.0 0.75) (mkQuaternion 0.0 0.0 0.0 1.0)).

(** The request as [main] has filled it in when it reaches the planner. *)
Definition build_request : MotionPlanRequest :=
  let req := MotionPlanRequest_default in
  let tolerance_pose := repeat 0.01%float 3 in
  let tolerance_angle := repeat 0.01%float 3 in
  let req := set_group_name group_name req in
  let req := set_allowed_planning_time 5.0 req in
  let req := set_planner_id "panda_arm[EST]" req in
  let pose_goal :=
    constructGoalConstraints "panda_link8" goal_pose
                             tolerance_pose tolerance_angle in
  push_goal pose_goal req.

Definition main (env : Env) : M Z :=
  emit (ESetup "ros::init") ;;
  emit (ESetup "AsyncSpinner::start") ;;
  emit (ESetup "NodeHandle") ;;
  emit (ELog Debug "Start!" []) ;;
  emit (ESetup "RobotModelLoader") ;;
  emit (ESetup "PlanningSceneMonitor") ;;
  emit (ESetup "startSceneMonitor") ;;
  emit (ESetup "startWorldGeometryMonitor") ;;
  emit (ESetup "startStateMonitor") ;;
  emit (ESetup "updateSceneWithCurrentState") ;;
  emit (ESetup "getModel") ;;
  emit (ESetup "getStateMonitor") ;;
  emit (ESetup "getCurrentState") ;;
  emit (ESetup "getJointModelGroup") ;;
  emit (ESetup "PlanningPipeline") ;;
  emit (ESetup "getPlannerManager") ;;
  emit (ESetup "printStatePositions") ;;
  let req := build_request in
  res <- locked_generatePlan env req ;;
  if negb (val (error_code_ res) =? SUCCESS env)%Z then
    emit (ELog Error "Could not compute plan successfully" []) ;;
    ret 0%Z
  else
    emit (ESetup "MoveItVisualTools") ;;
    emit (EVisual deleteAllMarkers) ;;
    emit (ESetup "advertise") ;;
    let display_trajectory := DisplayTrajectory_default in
    emit (ELog Info "Visualizing the trajectory" []) ;;
    let response := getMessage res in
    let display_trajectory :=
      mkDisplayTrajectory (trajectory_start response)
                          (dt_trajectory display_trajectory
                           ++ [trajectory response]) in
    emit (EVisual (publishDisplayTrajectory display_trajectory)) ;;
    emit (EVisual (publishTrajectoryLine
                     (last (dt_trajectory display_trajectory)
                           RobotTrajectory_default))) ;;
    emit (EVisual trigger) ;;
    let robot_trajectory := trajectory response in
    new_execution_manager ;;
    emit (ESetup "getControllerManager") ;;
    printControllers env ;;
    exec_push robot_trajectory ;;
    status <- exec_executeAndWait (backend env) ;;
    emit (ELog Info "Status: %s" [ArgStr (asString status)]) ;;
    promptAnyInput ;;
    emit (EStdout ("Finished!" ++ endl)) ;;
    ret 0%Z.

End PickAndPlaceNode.

(** ** tacbot: plan_and_execute.cpp *)

Module PlanAndExecute.
Import Eigen Msgs Execution Ros.
Local Open Scope string_scope.
Local Open Scope run_scope.

(** What tacbot's own classes ([PerceptionPlanner], [MyMoveitContext],
    [Visualizer], [utilities]) and the user answer during one run. *)
Record Env : Type := mkEnv {
  (** [moveit_msgs::MoveItErrorCodes::SUCCESS] *)
  SUCCESS : Z;
  (** [planner->setCurToStartState(req)] writes into the request *)
  setCurToStartState : MotionPlanRequest -> MotionPlanRequest;
  createJointGoal : Constraints;
  getJointNames : list string;
  getJointGoalPos : list float;
  getObstaclePos : list Vector3d;
  (** [utilities::promptUserInput()], by the number of the prompt *)
  promptUserInput : nat -> bool;
  getGroupName : string;
  getPlannerId : string;
  (** [planner->generatePlan(res)], on the context made from the request *)
  generatePlan : MotionPlanRequest -> MotionPlanResponse;
  (** [planner->raw_plan_resp_] once the planner has run *)
  raw_plan_resp_ : MotionPlanRequest -> MotionPlanResponseMsg;
  (** [utilities::toControlTrajectory]: way points and velocities *)
  toControlTrajectory :
    MotionPlanResponseMsg -> list (list float) * list (list float)
}.

(** The request as [main] has filled it in when the planning context is
    created from it. *)
Definition build_request (env : Env) : MotionPlanRequest :=
  let req := MotionPlanRequest_default in
  let req := setCurToStartState env req in
  let goal := createJointGoal env in
  let req := push_goal goal req in
  let req := set_group_name (getGroupName env) req in
  let req := set_allowed_planning_time 10.0 req in
  let req := set_planner_id (getPlannerId env) req in
  let req := set_max_acceleration_scaling_factor 0.5 req in
  set_max_velocity_scaling_factor 0.5 req.

Definition main (env : Env) : M Z :=
  emit (ESetup "ros::init") ;;
  emit (ESetup "AsyncSpinner::start") ;;
  emit (ESetup "NodeHandle") ;;
  emit (ELog Info "Start!" []) ;;
  emit (ESetup "PerceptionPlanner") ;;
  emit (ELog Info "planner->init()" []) ;;
  emit (ESetup "planner->init") ;;
  emit (ELog Info "planner->getVisualizerData()" []) ;;
  emit (ESetup "Visualizer") ;;
  emit (ELog Info "MyMoveitContext()" []) ;;
  emit (ESetup "MyMoveitContext") ;;
  emit (ELog Info "setCurToStartState" []) ;;
  emit (ESetup "planner->setCurToStartState") ;;
  emit (ELog Info "createJointGoal" []) ;;
  emit (ESetup "planner->createJointGoal") ;;
  emit (ELog Info "visualizeGoalState" []) ;;
  emit (EVisual (visualizeGoalState (getJointNames env)
                                    (getJointGoalPos env))) ;;
  emit (ELog Info "visualizeObstacleMarker" []) ;;
  emit (EVisual (visualizeObstacleMarker (getObstaclePos env))) ;;
  let status := promptUserInput env 0 in
  emit (EPrompt status) ;;
  if negb status then
    ret 0%Z
  else
    let req := build_request env in
    emit (ELog Info "createPlanningContext" []) ;;
    emit (ECreatePlanningContext req) ;;
    emit (ELog Info "setPlanningContext" []) ;;
    emit (ESetup "planner->setPlanningContext") ;;
    emit (ELog Info "planner->changePlanner()" []) ;;
    emit (ESetup "planner->changePlanner") ;;
    emit (ELog Info "generatePlan" []) ;;
    emit (EGeneratePlan req) ;;
    let res := generatePlan env req in
    if negb (val (error_code_ res) =? SUCCESS env)%Z then
      emit (ELog Error
                 "Could not compute plan successfully. Error code: %d"
                 [ArgInt (val (error_code_ res))]) ;;
      ret 1%Z
    else
      let msg := getMessage res in
      emit (EVisual (visualizeTrajectory msg "planned_path")) ;;
      emit (EVisual (visualizeTrajectory (raw_plan_resp_ env req)
                                         "raw_path")) ;;
      emit (EPrompt (promptUserInput env 1)) ;;
      let execute_trajectory := false in
      (if Bool.eqb execute_trajectory true then
         emit (ESetup "PandaInterface::init") ;;
         emit (EExec move_to_default_pose) ;;
         let traj_msg := getMessage res in
         let joint_velocities := snd (toControlTrajectory env traj_msg) in
         emit (EExec (follow_joint_velocities joint_velocities))
       else
         ret tt) ;;
      emit (EStdout ("Finished!" ++ endl)) ;;
      ret 0%Z.

End PlanAndExecute.

(** ** Reading a log *)

Module Trace.
Import Msgs Execution Ros.

Definition is_visual (e : Event) : bool :=
  match e with EVisual _ => true | _ => false end.

Definition is_exec (e : Event) : bool :=
  match e with EExec _ => true | _ => false end.

(** Output for a human reader: log lines and standard output. *)
Definition is_console (e : Event) : bool :=
  match e with ELog _ _ _ | EStdout _ => true | _ => false end.

Definition is_controller_query (e : Event) : bool :=
  match e with
  | EGetActiveControllers | EGetControllersList => true
  | _ => false
  end.

Definition is_planner_call (e : Event) : bool :=
  match e with EGeneratePlan _ => true | _ => false end.

Definition is_trajectory_display (e : Event) : bool :=
  match e with
  | EVisual (publishDisplayTrajectory _)
  | EVisual (publishTrajectoryLine _)
  | EVisual (visualizeTrajectory _ _) => true
  | _ => false
  end.

(** The events that hand a planning request over. *)
Definition uses_request (e : Event) : bool :=
  match e with
  | ECreatePlanningContext _ | EGeneratePlan _ => true
  | _ => false
  end.

(** The log with the output for a human reader left out. *)
Definition without_console (l : list Event) : list Event :=
  filter (fun e => negb (is_console e)) l.

End Trace.

(** ** The logs of pick_and_place_node, phase by phase *)

Module PickAndPlaceTrace.
Import Msgs Execution Ros PickAndPlaceNode.
Local Open Scope string_scope.

Definition startup : list Event :=
  [ESetup "ros::init"; ESetup "AsyncSpinner::start"; ESetup "NodeHandle";
   ELog Debug "Start!" []; ESetup "RobotModelLoader";
   ESetup "PlanningSceneMonitor"; ESetup "startSceneMonitor";
   ESetup "startWorldGeometryMonitor"; ESetup "startStateMonitor";
   ESetup "updateSceneWithCurrentState"; ESetup "getModel";
   ESetup "getStateMonitor"; ESetup "getCurrentState";
   ESetup "getJointModelGroup"; ESetup "PlanningPipeline";
   ESetup "getPlannerManager"; ESetup "printStatePositions"].

Definition planning (req : MotionPlanRequest) : list Event :=
  [ELockSceneRO; EGeneratePlan req; EUnlockSceneRO].

Definition failure_report : list Event :=
  [ELog Error "Could not compute plan successfully" []].

Definition visualization (res : MotionPlanResponse) : list Event :=
  [ESetup "MoveItVisualTools"; EVisual deleteAllMarkers; ESetup "advertise";
   ELog Info "Visualizing the trajectory" [];
   EVisual (publishDisplayTrajectory
              (mkDisplayTrajectory (start_ res) [trajectory_ res]));
   EVisual (publishTrajectoryLine (trajectory_ res));
   EVisual trigger].

Definition execution_setup : list Event :=
  [ESetup "TrajectoryExecutionManager"; ESetup "getControllerManager"].

Definition print_controller (controller : string) : Event :=
  EStdout (controller ++ ", " ++ endl).

Definition controllers_report (env : Env) : list Event :=
  [EGetActiveControllers; EGetControllersList;
   ELog Info "Active controllers: %ld"
        [ArgInt (Z.of_nat (List.length (getActiveControllers env)))]]
  ++ map print_controller (getActiveControllers env)
  ++ [ELog Info "Known controllers: %ld"
           [ArgInt (Z.of_nat (List.length (getControllersList env)))]]
  ++ map print_controller (getControllersList env).

Definition execution (t : RobotTrajectory) (s : ExecutionStatus)
  : list Event :=
  [EExec (push t); EExec (executeAndWait s);
   ELog Info "Status: %s" [ArgStr (asString s)]].

Definition farewell : list Event :=
  [EStdout endl; EStdout "Press any key to continue: "; EGetchar;
   EStdout ("Finished!" ++ endl)].

(** The planner's answer in a run, and whether it is a success. *)
Definition plan_result (env : Env) : MotionPlanResponse :=
  generatePlan env build_request.

Definition plan_code (env : Env) : Z := val (error_code_ (plan_result env)).

(** The status the backend ends the execution of the planned trajectory
    with. *)
Definition final_status (env : Env) : ExecutionStatus :=
  status_of (backend env [trajectory_ (plan_result env)]).

(** The same collaborators, with other controller lists. *)
Definition with_controllers (env : Env) (active known : list string) : Env :=
  mkEnv (SUCCESS env) (generatePlan env) active known (backend env).

End PickAndPlaceTrace.

(** ** The logs of plan_and_execute, phase by phase *)

Module PlanAndExecuteTrace.
Import Eigen Msgs Execution Ros PlanAndExecute.
Local Open Scope string_scope.

Definition startup (env : Env) : list Event :=
  [ESetup "ros::init"; ESetup "AsyncSpinner::start"; ESetup "NodeHandle";
   ELog Info "Start!" []; ESetup "PerceptionPlanner";
   ELog Info "planner->init()" []; ESetup "planner->init";
   ELog Info "planner->getVisualizerData()" []; ESetup "Visualizer";
   ELog Info "MyMoveitContext()" []; ESetup "MyMoveitContext";
   ELog Info "setCurToStartState" []; ESetup "planner->setCurToStartState";
   ELog Info "createJointGoal" []; ESetup "planner->createJointGoal";
   ELog Info "visualizeGoalState" [];
   EVisual (visualizeGoalState (getJointNames env) (getJointGoalPos env));
   ELog Info "visualizeObstacleMarker" [];
   EVisual (visualizeObstacleMarker (getObstaclePos env))].

Definition planning (req : MotionPlanRequest) : list Event :=
  [ELog Info "createPlanningContext" []; ECreatePlanningContext req;
   ELog Info "setPlanningContext" []; ESetup "planner->setPlanningContext";
   ELog Info "planner->changePlanner()" []; ESetup "planner->changePlanner";
   ELog Info "generatePlan" []; EGeneratePlan req].

Definition failure_report (code : Z) : list Event :=
  [ELog Error "Could not compute plan successfully. Error code: %d"
        [ArgInt code]].

Definition visualization (env : Env) (res : MotionPlanResponse)
  : list Event :=
  [EVisual (visualizeTrajectory (getMessage res) "planned_path");
   EVisual (visualizeTrajectory (raw_plan_resp_ env (build_request env))
                                "raw_path");
   EPrompt (promptUserInput env 1)].

Definition farewell : list Event := [EStdout ("Finished!" ++ endl)].

(** The planner's answer in a run in which the user lets it plan. *)
Definition plan_result (env : Env) : MotionPlanResponse :=
  generatePlan env (build_request env).

Definition plan_code (env : Env) : Z := val (error_code_ (plan_result env)).

End PlanAndExecuteTrace.

(** ** Collaborators to run the programs against *)

Module Samples.
Import Eigen Msgs Execution Ros.
Local Open Scope string_scope.

(** A trajectory of two way points for the seven joints of the arm. *)
Definition two_waypoints : RobotTrajectory :=
  mkRobotTrajectory
    (mkJointTrajectory
       ["panda_joint1"; "panda_joint2"; "panda_joint3"; "panda_joint4";
        "panda_joint5"; "panda_joint6"; "panda_joint7"]
       [mkJointTrajectoryPoint (repeat 0%float 7) (repeat 0%float 7)
                               (repeat 0%float 7) [];
        mkJointTrajectoryPoint (repeat 0.5%float 7) (repeat 0%float 7)
                               (repeat 0%float 7) []]).

Definition seven_zeros : RobotState :=
  mkRobotState
    ["panda_joint1"; "panda_joint2"; "panda_joint3"; "panda_joint4";
     "panda_joint5"; "panda_joint6"; "panda_joint7"]
    (repeat 0%float 7) [] [].

(** A planner that finds the trajectory, and one that gives up with the
    code -1 of a failed planning. *)
Definition planner_ok (_ : MotionPlanRequest) : MotionPlanResponse :=
  mkMotionPlanResponse (mkErrorCodes 1) seven_zeros two_waypoints.

Definition planner_failing (_ : MotionPlanRequest) : MotionPlanResponse :=
  mkMotionPlanResponse (mkErrorCodes (-1)) RobotState_default
                       RobotTrajectory_default.

Definition node_ok : PickAndPlaceNode.Env :=
  PickAndPlaceNode.mkEnv 1 planner_ok
    ["position_joint_trajectory_controller"]
    ["position_joint_trajectory_controller"; "franka_state_controller"]
    (fun _ => completion).

Definition node_failing : PickAndPlaceNode.Env :=
  PickAndPlaceNode.mkEnv 1 planner_failing [] [] (fun _ => completion).

Definition tacbot_env (planner : MotionPlanRequest -> MotionPlanResponse)
  : PlanAndExecute.Env :=
  PlanAndExecute.mkEnv 1
    (fun req =>
       mkMotionPlanRequest seven_zeros (goal_constraints req)
         (planner_id req) (group_name req) (allowed_planning_time req)
         (max_velocity_scaling_factor req)
         (max_acceleration_scaling_factor req))
    (jointGoal ["panda_joint1"] [0.5%float])
    ["panda_joint1"] [0.5%float]
    [mkVector3d 0.5 0.0 0.6]
    (fun _ => true)
    "panda_arm" "panda_arm[RRTConnect]"
    planner
    (fun _ => mkMotionPlanResponseMsg seven_zeros two_waypoints)
    (fun _ => ([], [])).

Definition tacbot_ok : PlanAndExecute.Env := tacbot_env planner_ok.

Definition tacbot_failing : PlanAndExecute.Env := tacbot_env planner_failing.

End Samples.

(** ** std::map with string keys *)

Module StdMap.

(** [std::map<std::string, V>]: the entries in the order of their keys
    (the order of [std::less<std::string>], byte by byte), one per key. *)
Definition t (V : Type) : Type := list (string * V).

Definition empty {V : Type} : t V := [].

Definition size {V : Type} (m : t V) : nat := List.length m.

(** The entry of a key, if the map has one. *)
Fixpoint find {V : Type} (key : string) (m : t V) : option V :=
  match m with
  | [] => None
  | (k, v) :: m' => if String.eqb key k then Some v else find key m'
  end.

(** [m[key] = value]: the entry of [key] is made or replaced, in place. *)
Fixpoint assign {V : Type} (key : string) (value : V) (m : t V) : t V :=
  match m with
  | [] => [(key, value)]
  | (k, v) :: m' =>
      match String.compare key k with
      | Lt => (key, value) :: m
      | Eq => (key, value) :: m'
      | Gt => (k, v) :: assign key value m'
      end
  end.

(** What every [std::map] satisfies: strictly increasing keys. *)
Fixpoint ordered {V : Type} (m : t V) : bool :=
  match m with
  | [] => true
  | (k, _) :: m' =>
      match m' with
      | [] => true
      | (k', _) :: _ => String.ltb k k'
      end && ordered m'
  end.

(** A C++ exception, and a call that returns or throws. *)
Inductive exception : Type := out_of_range.

Inductive Outcome (A : Type) : Type :=
| Returned (a : A)
| Threw (e : exception).

Arguments Returned {A} a.
Arguments Threw {A} e.

(** [m.at(key)]: the entry, or [std::out_of_range]. *)
Definition at_ {V : Type} (key : string) (m : t V) : Outcome V :=
  match find key m with
  | Some v => Returned v
  | None => Threw out_of_range
  end.

End StdMap.

(** ** pick_and_place_node.cpp: the helpers beside [main] *)

Module PickAndPlaceHelpers.
Import Msgs Execution Ros StdMap.
Local Open Scope string_scope.
Local Open Scope run_scope.

(** [planning_interface::PlannerConfigurationSettings], as the helpers
    read and write it. *)
Record PlannerConfigurationSettings : Type := mkSettings {
  pcs_group : string;
  pcs_name : string;
  pcs_config : StdMap.t string
}.

(** [planning_interface::PlannerConfigurationMap]. *)
Definition PlannerConfigurationMap : Type :=
  StdMap.t PlannerConfigurationSettings.

(** The key under which a group and a planner type are registered. *)
Definition config_key (group_name type : string) : string :=
  group_name ++ "[" ++ type ++ "]".

(** The map is passed by reference: the result is whether the call
    returned or threw, and the map as the call leaves it. *)
Definition addPlannerConfigurationSettings
           (planner_config_map : PlannerConfigurationMap)
           (group_name : string) (setting_map : StdMap.t string)
  : Outcome unit * PlannerConfigurationMap :=
  match at_ "type" setting_map with
  | Threw e => (Threw e, planner_config_map)
  | Returned name =>
      let planner_settings := mkSettings group_name name setting_map in
      match at_ "type" setting_map with
      | Threw e => (Threw e, planner_config_map)
      | Returned type =>
          let key := config_key group_name type in
          (Returned tt, assign key planner_settings planner_config_map)
      end
  end.

Definition tab : string := String (Ascii.ascii_of_nat 9) EmptyString.

(** What a printf-style [%s] shows of [s.c_str()]: the characters before
    the first NUL of the string. *)
Fixpoint c_str (s : string) : string :=
  match s with
  | EmptyString => EmptyString
  | String c s' =>
      if Ascii.eqb c Ascii.zero then EmptyString else String c (c_str s')
  end.

(** The string holds no NUL. *)
Fixpoint nul_free (s : string) : bool :=
  match s with
  | EmptyString => true
  | String c s' => negb (Ascii.eqb c Ascii.zero) && nul_free s'
  end.

Definition printPlannerConfigMap (planner_config_map : PlannerConfigurationMap)
  : M unit :=
  for_each planner_config_map
    (fun config =>
       emit (ELog Info "Map Name: %s" [ArgStr (c_str (fst config))]) ;;
       emit (ELog Info (tab ++ "Group: %s")
                  [ArgStr (c_str (pcs_group (snd config)))]) ;;
       emit (ELog Info (tab ++ "Name: %s")
                  [ArgStr (c_str (pcs_name (snd config)))]) ;;
       for_each (pcs_config (snd config))
         (fun setting =>
            emit (ELog Info (tab ++ tab ++ "Setting: %s")
                       [ArgStr (c_str (fst setting))]) ;;
            emit (ELog Info (tab ++ tab ++ "Value: %s")
                       [ArgStr (c_str (snd setting))]))).

(** *** Loops with an [int] counter *)

(** A run that may leave defined behaviour. *)
Definition MO (A : Type) : Type := World -> option (A * World).

Definition lift {A : Type} (c : M A) : MO A := fun w => Some (c w).

Definition bindO {A B : Type} (c : MO A) (k : A -> MO B) : MO B :=
  fun w => match c w with
           | Some (a, w') => k a w'
           | None => None
           end.

Fixpoint for_each_checked {A : Type} (l : list A) (body : A -> MO unit)
  : MO unit :=
  match l with
  | [] => lift (ret tt)
  | a :: l' => bindO (body a) (fun _ => for_each_checked l' body)
  end.

Definition INT_MAX : Z := 2 ^ 31 - 1.

(** [for (int i = 0; i < v.size(); i++)] over the elements [v[i]]: the
    counter is compared as an unsigned number and incremented as an
    [int], so a sequence of more than [INT_MAX] elements ends in a signed
    overflow, which is undefined. *)
Definition int_for {A : Type} (v : list A) (body : A -> MO unit) : MO unit :=
  fun w =>
    if (Z.of_nat (List.length v) <=? INT_MAX)%Z
    then for_each_checked v body w
    else None.

(** [show] is what [std::cout <<] writes for a [double]. *)
Definition printJointTrajectory (show : float -> string)
           (joint_trajectory : JointTrajectory) : MO unit :=
  let print_doubles (v : list float) :=
    int_for v (fun x => lift (emit (EStdout (show x ++ " ")))) in
  bindO (lift (emit (ELog Info "Num joints: %ld"
                 [ArgInt (Z.of_nat
                            (List.length (joint_names joint_trajectory)))])))
  (fun _ =>
  bindO (lift (emit (ELog Info "Num points: %ld"
                 [ArgInt (Z.of_nat
                            (List.length (points joint_trajectory)))])))
  (fun _ =>
  bindO (int_for (joint_names joint_trajectory)
                 (fun name => lift (emit (EStdout (name ++ " ")))))
  (fun _ =>
  int_for (points joint_trajectory)
    (fun traj_point =>
       bindO (lift (emit (EStdout (endl ++ "positions" ++ endl))))
       (fun _ =>
       bindO (print_doubles (positions traj_point))
       (fun _ =>
       bindO (lift (emit (EStdout (endl ++ "velocities" ++ endl))))
       (fun _ =>
       bindO (print_doubles (velocities traj_point))
       (fun _ =>
       bindO (lift (emit (EStdout (endl ++ "accelerations" ++ endl))))
       (fun _ =>
       bindO (print_doubles (accelerations traj_point))
       (fun _ =>
       bindO (lift (emit (EStdout (endl ++ "effort" ++ endl))))
       (fun _ =>
       print_doubles (effort traj_point)))))))))))).

(** *** What the helpers write, entry by entry *)

(** The world after some more events, all else as it was. *)
Definition logging (w : World) (events : list Event) : World :=
  mkWorld (scene_readers w) (exec_queue w) (exec_status w) (log w ++ events).

Definition setting_lines (setting : string * string) : list Event :=
  [ELog Info (tab ++ tab ++ "Setting: %s") [ArgStr (c_str (fst setting))];
   ELog Info (tab ++ tab ++ "Value: %s") [ArgStr (c_str (snd setting))]].

Definition config_lines (config : string * PlannerConfigurationSettings)
  : list Event :=
  [ELog Info "Map Name: %s" [ArgStr (c_str (fst config))];
   ELog Info (tab ++ "Group: %s") [ArgStr (c_str (pcs_group (snd config)))];
   ELog Info (tab ++ "Name: %s") [ArgStr (c_str (pcs_name (snd config)))]]
  ++ flat_map setting_lines (pcs_config (snd config)).

Definition doubles_written (show : float -> string) (v : list float)
  : list Event :=
  map (fun x => EStdout (show x ++ " ")) v.

Definition point_lines (show : float -> string) (p : JointTrajectoryPoint)
  : list Event :=
  [EStdout (endl ++ "positions" ++ endl)]
  ++ doubles_written show (positions p)
  ++ [EStdout (endl ++ "velocities" ++ endl)]
  ++ doubles_written show (velocities p)
  ++ [EStdout (endl ++ "accelerations" ++ endl)]
  ++ doubles_written show (accelerations p)
  ++ [EStdout (endl ++ "effort" ++ endl)]
  ++ doubles_written show (effort p).

Definition trajectory_lines (show : float -> string) (jt : JointTrajectory)
  : list Event :=
  [ELog Info "Num joints: %ld"
        [ArgInt (Z.of_nat (List.length (joint_names jt)))];
   ELog Info "Num points: %ld"
        [ArgInt (Z.of_nat (List.length (points jt)))]]
  ++ map (fun name => EStdout (name ++ " ")) (joint_names jt)
  ++ flat_map (point_lines show) (points jt).

Definition fits_int {A : Type} (v : list A) : bool :=
  (Z.of_nat (List.length v) <=? INT_MAX)%Z.

Definition point_fits (p : JointTrajectoryPoint) : bool :=
  fits_int (positions p) && fits_int (velocities p)
  && fits_int (accelerations p) && fits_int (effort p).

(** Every sequence the printer loops over can be counted by an [int]. *)
Definition countable (jt : JointTrajectory) : bool :=
  fits_int (joint_names jt) && fits_int (points jt)
  && forallb point_fits (points jt).

(** A registration as [addPlannerConfigurationSettings] makes it: the key
    is made of the entry's group and name, and the name is the entry's own
    setting "type". *)
Definition registered (entry : string * PlannerConfigurationSettings) : Prop :=
  fst entry = config_key (pcs_group (snd entry)) (pcs_name (snd entry))
  /\ find "type" (pcs_config (snd entry)) = Some (pcs_name (snd entry)).

(** The character '[' does not occur in the string. *)
Fixpoint bracket_free (s : string) : bool :=
  match s with
  | EmptyString => true
  | String c s' => negb (Ascii.eqb c (Ascii.ascii_of_nat 91)) && bracket_free s'
  end.

End PickAndPlaceHelpers.

(** ** More collaborators and readings of a log *)

Module MoreSamples.
Import Eigen Msgs Execution Ros.
Local Open Scope string_scope.

(** The user answers no at the first prompt of plan_and_execute. *)
Definition tacbot_declining : PlanAndExecute.Env :=
  PlanAndExecute.mkEnv
    (PlanAndExecute.SUCCESS Samples.tacbot_ok)
    (PlanAndExecute.setCurToStartState Samples.tacbot_ok)
    (PlanAndExecute.createJointGoal Samples.tacbot_ok)
    (PlanAndExecute.getJointNames Samples.tacbot_ok)
    (PlanAndExecute.getJointGoalPos Samples.tacbot_ok)
    (PlanAndExecute.getObstaclePos Samples.tacbot_ok)
    (fun _ => false)
    (PlanAndExecute.getGroupName Samples.tacbot_ok)
    (PlanAndExecute.getPlannerId Samples.tacbot_ok)
    (PlanAndExecute.generatePlan Samples.tacbot_ok)
    (PlanAndExecute.raw_plan_resp_ Samples.tacbot_ok)
    (PlanAndExecute.toControlTrajectory Samples.tacbot_ok).

(** The same collaborators and user, but for the answer at the second
    prompt. *)
Definition with_second_answer (env : PlanAndExecute.Env) (answer : bool)
  : PlanAndExecute.Env :=
  PlanAndExecute.mkEnv
    (PlanAndExecute.SUCCESS env)
    (PlanAndExecute.setCurToStartState env)
    (PlanAndExecute.createJointGoal env)
    (PlanAndExecute.getJointNames env)
    (PlanAndExecute.getJointGoalPos env)
    (PlanAndExecute.getObstaclePos env)
    (fun n => match n with
              | 1%nat => answer
              | _ => PlanAndExecute.promptUserInput env n
              end)
    (PlanAndExecute.getGroupName env)
    (PlanAndExecute.getPlannerId env)
    (PlanAndExecute.generatePlan env)
    (PlanAndExecute.raw_plan_resp_ env)
    (PlanAndExecute.toControlTrajectory env).

Definition is_prompt (e : Event) : bool :=
  match e with EPrompt _ => true | _ => false end.

(** The three vectors of a [Vector3d], and the vector of a column. *)
Definition coefficients (v : Vector3d) : list float := [v_x v; v_y v; v_z v].

(** Settings of a sampling planner, and a settings map without a type. *)
Definition est_settings : StdMap.t string :=
  [("range", "0.0"); ("type", "geometric::EST")].

Definition untyped_settings : StdMap.t string := [("range", "0.0")].

End MoreSamples.

(** ** pick_and_place_node.cpp again: exceptions, and the lock as each
       event sees it *)

Module NodeWithExceptions.
Import Msgs Execution Ros Trace.
Local Open Scope string_scope.

(** How a piece of the program ends: it returns; or an exception is on its
    way out of it, and the destructors of the scopes it leaves run; or
    [std::terminate] has been called and nothing runs any more. *)
Inductive Completion (A : Type) : Type :=
| Normal (a : A)
| Unwinding
| Terminated.

Arguments Normal {A} a.
Arguments Unwinding {A}.
Arguments Terminated {A}.

(** The world, and beside every event of its log the number of read locks
    on the planning scene that were held in the world when the step that
    made the event was done. *)
Record Observed : Type := mkObserved {
  world : World;
  observed : list (Event * nat)
}.

Definition start : Observed := mkObserved boot [].

Definition MX (A : Type) : Type := Observed -> Completion A * Observed.

Definition retX {A : Type} (a : A) : MX A := fun o => (Normal a, o).

Definition bindX {A B : Type} (c : MX A) (k : A -> MX B) : MX B :=
  fun o =>
    match c o with
    | (Normal a, o') => k a o'
    | (Unwinding, o') => (Unwinding, o')
    | (Terminated, o') => (Terminated, o')
    end.

(** One step of the program: it runs in the world, and the events it adds
    to the log are noted with the lock count of the world it leaves. *)
Definition observe {A : Type} (c : M A) : MX A :=
  fun o =>
    let (a, w') := c (world o) in
    (Normal a,
     mkObserved w'
       (observed o
        ++ map (fun e => (e, scene_readers w'))
               (skipn (List.length (log (world o))) (log w')))).

(** What the collaborators answer, whether the planner call throws
    instead of returning, and what the C++ implementation does with an
    exception no handler waits for: whether it unwinds the stack before it
    calls [std::terminate] is implementation-defined. *)
Record Env : Type := mkEnv {
  collaborators : PickAndPlaceNode.Env;
  planner_throws : MotionPlanRequest -> bool;
  unwinds_before_terminate : bool
}.

(** [main] has no [try] block: an exception thrown anywhere in it finds no
    handler. *)
Definition throw_unhandled {A : Type} (x : Env) : MX A :=
  fun o => (if unwinds_before_terminate x then Unwinding else Terminated, o).

(** A block that starts by declaring a [LockedPlanningSceneRO]: the lock
    is taken, the rest of the block runs, and the destructor gives the lock
    back when the block is left, by its end or by an exception that
    unwinds the stack. *)
Definition scoped_LockedPlanningSceneRO {A : Type} (body : MX A) : MX A :=
  fun o =>
    let o1 := snd (observe lock_scene_ro o) in
    match body o1 with
    | (Normal a, o2) => (Normal a, snd (observe unlock_scene_ro o2))
    | (Unwinding, o2) => (Unwinding, snd (observe unlock_scene_ro o2))
    | (Terminated, o2) => (Terminated, o2)
    end.

Definition generatePlan (x : Env) (req : MotionPlanRequest)
  : MX MotionPlanResponse :=
  bindX (observe (emit (EGeneratePlan req)))
        (fun _ =>
           if planner_throws x req
           then throw_unhandled x
           else retX (PickAndPlaceNode.generatePlan (collaborators x) req)).

(** Lines 229-233. *)
Definition locked_generatePlan (x : Env) (req : MotionPlanRequest)
  : MX MotionPlanResponse :=
  scoped_LockedPlanningSceneRO (generatePlan x req).

Declare Scope observed_scope.
Delimit Scope observed_scope with observed.
Notation "x <- c ;; k" := (bindX c (fun x => k))
  (at level 61, c at next level, right associativity) : observed_scope.
Notation "c ;; k" := (bindX c (fun _ => k))
  (at level 61, right associativity) : observed_scope.
Local Open Scope observed_scope.

Definition main (x : Env) : MX Z :=
  let env := collaborators x in
  observe (emit (ESetup "ros::init")) ;;
  observe (emit (ESetup "AsyncSpinner::start")) ;;
  observe (emit (ESetup "NodeHandle")) ;;
  observe (emit (ELog Debug "Start!" [])) ;;
  observe (emit (ESetup "RobotModelLoader")) ;;
  observe (emit (ESetup "PlanningSceneMonitor")) ;;
  observe (emit (ESetup "startSceneMonitor")) ;;
  observe (emit (ESetup "startWorldGeometryMonitor")) ;;
  observe (emit (ESetup "startStateMonitor")) ;;
  observe (emit (ESetup "updateSceneWithCurrentState")) ;;
  observe (emit (ESetup "getModel")) ;;
  observe (emit (ESetup "getStateMonitor")) ;;
  observe (emit (ESetup "getCurrentState")) ;;
  observe (emit (ESetup "getJointModelGroup")) ;;
  observe (emit (ESetup "PlanningPipeline")) ;;
  observe (emit (ESetup "getPlannerManager")) ;;
  observe (emit (ESetup "printStatePositions")) ;;
  let req := PickAndPlaceNode.build_request in
  res <- locked_generatePlan x req ;;
  if negb (val (error_code_ res) =? PickAndPlaceNode.SUCCESS env)%Z then
    observe (emit (ELog Error "Could not compute plan successfully" [])) ;;
    retX 0%Z
  else
    observe (emit (ESetup "MoveItVisualTools")) ;;
    observe (emit (EVisual deleteAllMarkers)) ;;
    observe (emit (ESetup "advertise")) ;;
    let display_trajectory := DisplayTrajectory_default in
    observe (emit (ELog Info "Visualizing the trajectory" [])) ;;
    let response := getMessage res in
    let display_trajectory :=
      mkDisplayTrajectory (trajectory_start response)
                          (dt_trajectory display_trajectory
                           ++ [trajectory response])%list in
    observe (emit (EVisual (publishDisplayTrajectory display_trajectory))) ;;
    observe (emit (EVisual (publishTrajectoryLine
                              (last (dt_trajectory display_trajectory)
                                    RobotTrajectory_default)))) ;;
    observe (emit (EVisual trigger)) ;;
    let robot_trajectory := trajectory response in
    observe new_execution_manager ;;
    observe (emit (ESetup "getControllerManager")) ;;
    observe (PickAndPlaceNode.printControllers env) ;;
    observe (exec_push robot_trajectory) ;;
    status <- observe (exec_executeAndWait (PickAndPlaceNode.backend env)) ;;
    observe (emit (ELog Info "Status: %s" [ArgStr (asString status)])) ;;
    observe PickAndPlaceNode.promptAnyInput ;;
    observe (emit (EStdout ("Finished!" ++ endl))) ;;
    retX 0%Z.

(** The whole program: an exception that leaves [main] ends in
    [std::terminate]. *)
Definition run (x : Env) : Completion Z * Observed :=
  match main x start with
  | (Unwinding, o) => (Terminated, o)
  | done => done
  end.

(** The read locks held in the world when the step that makes [e] is
    done, in a program that holds the lock for the planner call alone. *)
Definition held_during (e : Event) : nat :=
  match e with
  | ELockSceneRO | EGeneratePlan _ => 1
  | _ => 0
  end.

(** Events noted with one lock count. *)
Definition stamped (held : nat) (events : list Event) : list (Event * nat) :=
  map (fun e => (e, held)) events.

(** What has been noted of a run when the block around the planner call
    has been left by its end. *)
Definition noted_planning : list (Event * nat) :=
  (stamped 0 PickAndPlaceTrace.startup
   ++ [(ELockSceneRO, 1%nat);
       (EGeneratePlan PickAndPlaceNode.build_request, 1%nat);
       (EUnlockSceneRO, 0%nat)])%list.

(** The planner throws, and the implementation terminates without
    unwinding. *)
Definition throwing_without_unwinding : Env :=
  mkEnv Samples.node_ok (fun _ => true) false.

End NodeWithExceptions.

(** Short names for the two programs and their logs. *)
Module N := PickAndPlaceNode.
Module NT := PickAndPlaceTrace.
Module T := PlanAndExecute.
Module TT := PlanAndExecuteTrace.

(** * Properties *)

(** ** Eigen matrices and [getVector] *)

Module EigenFacts.
Import Eigen.

Lemma to_Index_small (i : Z) : i < Index_max -> to_Index i = i.
Proof.
  intros Hi. unfold to_Index.
  destruct (Z.ltb_spec i Index_max); [reflexivity | lia].
Qed.

Lemma to_Index_large (i : Z) :
  Index_max <= i < size_t_max -> to_Index i < 0.
Proof.
  intros [Hlo Hhi]. unfold to_Index.
  destruct (Z.ltb_spec i Index_max); lia.
Qed.

Lemma in_range_spec (m : MatrixXd) (row col : Z) :
  in_range m row col = true <->
  0 <= row < m_rows m /\ 0 <= col < m_cols m.
Proof.
  unfold in_range. rewrite !andb_true_iff, !Z.leb_le, !Z.ltb_lt. lia.
Qed.

Lemma column_length (m : MatrixXd) (col : Z) :
  wf m -> 0 <= col < m_cols m ->
  List.length (column m col) = Z.to_nat (m_rows m).
Proof.
  intros (Hr & Hc & _ & Hlen) Hcol. unfold column.
  rewrite length_firstn, length_skipn. apply Nat.min_l.
  apply Nat2Z.inj_le. rewrite Nat2Z.inj_sub.
  - rewrite Hlen, !Z2Nat.id by nia. nia.
  - apply Nat2Z.inj_le. rewrite Hlen, Z2Nat.id by nia. nia.
Qed.

(** Reading through [operator()] and reading the column agree. *)
Lemma coeff_column (m : MatrixXd) (row col : Z) :
  wf m -> 0 <= row < m_rows m -> 0 <= col < m_cols m ->
  coeff m row col = nth_error (column m col) (Z.to_nat row).
Proof.
  intros Hwf Hrow Hcol. unfold coeff, column.
  replace (in_range m row col) with true
    by (symmetry; apply in_range_spec; lia).
  rewrite nth_error_firstn.
  replace (Z.to_nat row <? Z.to_nat (m_rows m))%nat with true
    by (symmetry; apply Nat.ltb_lt; lia).
  rewrite nth_error_skipn. f_equal.
  destruct Hwf as (Hr & _). rewrite <- Z2Nat.inj_add by nia. f_equal. lia.
Qed.

Lemma coeff_out_of_range (m : MatrixXd) (row col : Z) :
  in_range m row col = false -> coeff m row col = None.
Proof. intros H. unfold coeff. rewrite H. reflexivity. Qed.

End EigenFacts.

Module ManipulabilityMeasuresFacts.
Import Eigen EigenFacts ManipulabilityMeasures.

(** With three rows and column [i] present, the three reads of
    [getVector] are the head of column [i]. *)
Lemma getVector_reads_column (self : t) (i : Z) :
  wf (eigen_vectors self) ->
  3 <= m_rows (eigen_vectors self) ->
  0 <= i < m_cols (eigen_vectors self) ->
  exists a b c rest,
    column (eigen_vectors self) i = a :: b :: c :: rest /\
    getVector self i = Some (mkVector3d a b c, self).
Proof.
  intros Hwf Hrows Hi.
  pose proof (column_length _ i Hwf Hi) as Hlen.
  assert (Hidx : to_Index i = i).
  { apply to_Index_small. destruct Hwf as (_ & _ & Hmax & _). lia. }
  unfold getVector. rewrite Hidx.
  rewrite !(coeff_column _ _ i Hwf) by lia.
  destruct (column (eigen_vectors self) i) as [|a [|b [|c rest]]];
    simpl in Hlen; try lia.
  exists a, b, c, rest. split; reflexivity.
Qed.

(** Without three rows, or without column [i], some read of [getVector]
    falls outside the matrix. *)
Lemma getVector_outside (self : t) (i : Z) :
  0 <= i < size_t_max ->
  m_cols (eigen_vectors self) <= Index_max ->
  m_rows (eigen_vectors self) < 3 \/ m_cols (eigen_vectors self) <= i ->
  getVector self i = None.
Proof.
  intros Hi Hmax Hout. unfold getVector.
  assert (Hr : in_range (eigen_vectors self) 2 (to_Index i) = false).
  { apply not_true_iff_false. rewrite in_range_spec. intros [Hrow Hcol].
    destruct Hout as [Hout | Hout]; [lia |].
    destruct (Z.lt_ge_cases i Index_max) as [Hsmall | Hlarge].
    - rewrite to_Index_small in Hcol by assumption. lia.
    - pose proof (to_Index_large i (conj Hlarge (proj2 Hi))). lia. }
  destruct (coeff (eigen_vectors self) 0 (to_Index i)); [|reflexivity].
  destruct (coeff (eigen_vectors self) 1 (to_Index i)); [|reflexivity].
  simpl. rewrite (coeff_out_of_range _ _ _ Hr). reflexivity.
Qed.

(** C6: on a matrix with at least three rows and more than [i] columns,
    [getVector i] returns the entries at rows 0, 1 and 2 of column [i] of
    [eigen_vectors], in that order, and leaves the object as it was. *)
Theorem getVector_returns_column (self : t) (i : Z) :
  wf (eigen_vectors self) ->
  3 <= m_rows (eigen_vectors self) ->
  0 <= i < m_cols (eigen_vectors self) ->
  exists a b c rest,
    column (eigen_vectors self) i = a :: b :: c :: rest
    /\ coeff (eigen_vectors self) 0 i = Some a
    /\ coeff (eigen_vectors self) 1 i = Some b
    /\ coeff (eigen_vectors self) 2 i = Some c
    /\ getVector self i = Some (mkVector3d a b c, self).
Proof.
  intros Hwf Hrows Hi.
  destruct (getVector_reads_column self i Hwf Hrows Hi)
    as (a & b & c & rest & Hcol & Hget).
  exists a, b, c, rest. split; [exact Hcol|].
  rewrite !(coeff_column _ _ i Hwf) by lia. rewrite Hcol.
  repeat split; [reflexivity .. | exact Hget].
Qed.

Lemma sample_wf : wf (eigen_vectors sample).
Proof. unfold wf, Index_max; simpl. lia. Qed.

Lemma getVector_returns_column_witness :
  getVector sample 1 = Some (mkVector3d 4 5 6, sample).
Proof.
  destruct (getVector_returns_column sample 1 sample_wf)
    as (a & b & c & rest & Hcol & _ & _ & _ & Hget); [simpl; lia ..|].
  injection Hcol as <- <- <- _. exact Hget.
Defined.

(** C7: [getVector] checks no bound. Its result is defined exactly when
    [eigen_vectors] has at least three rows and at least [i + 1] columns;
    a default-constructed object has two 0 x 0 matrices and [pass] false,
    and every [getVector] call on it reads outside the matrix. *)
Theorem getVector_defined_iff_in_bounds (self : t) (i : Z) :
  wf (eigen_vectors self) ->
  0 <= i < size_t_max ->
  (getVector self i <> None <->
   3 <= m_rows (eigen_vectors self) /\ i + 1 <= m_cols (eigen_vectors self))
  /\ eigen_values default = mkMatrixXd 0 0 []
  /\ eigen_vectors default = mkMatrixXd 0 0 []
  /\ pass default = false
  /\ (forall j,
        in_range (eigen_vectors default) 0 (to_Index j) = false
        /\ getVector default j = None).
Proof.
  intros Hwf Hi.
  assert (Hmax : m_cols (eigen_vectors self) <= Index_max)
    by (destruct Hwf as (_ & _ & Hmax & _); lia).
  split; [|repeat split].
  split.
  - intros Hdef.
    destruct (Z.lt_ge_cases (m_rows (eigen_vectors self)) 3) as [Hr|Hr].
    { exfalso. apply Hdef. apply getVector_outside; auto. }
    destruct (Z.lt_ge_cases i (m_cols (eigen_vectors self))) as [Hc|Hc];
      [lia |].
    exfalso. apply Hdef. apply getVector_outside; auto.
  - intros [Hr Hc].
    destruct (getVector_reads_column self i Hwf Hr)
      as (a & b & c & rest & _ & Hget); [lia |].
    rewrite Hget. discriminate.
Qed.

Lemma getVector_defined_iff_in_bounds_witness :
  (getVector sample 2 <> None <->
   3 <= m_rows (eigen_vectors sample)
   /\ 2 + 1 <= m_cols (eigen_vectors sample))
  /\ eigen_values default = mkMatrixXd 0 0 []
  /\ eigen_vectors default = mkMatrixXd 0 0 []
  /\ pass default = false
  /\ (forall j,
        in_range (eigen_vectors default) 0 (to_Index j) = false
        /\ getVector default j = None).
Proof.
  apply (getVector_defined_iff_in_bounds sample 2 sample_wf).
  unfold size_t_max; lia.
Defined.

End ManipulabilityMeasuresFacts.

(** ** Runs and logs in general *)

Module RosFacts.
Import Msgs Execution Ros.

(** Appending events to a world's log, everything else untouched. *)
Lemma for_each_emit {A : Type} (f : A -> Event) (l : list A) (w : World) :
  for_each l (fun a => emit (f a)) w =
  (tt, mkWorld (scene_readers w) (exec_queue w) (exec_status w)
               (log w ++ map f l)).
Proof.
  revert w. induction l as [|a l IH]; intros [readers queue status events].
  - simpl. unfold ret. rewrite app_nil_r. reflexivity.
  - simpl. unfold bind. simpl. rewrite IH. simpl.
    rewrite <- app_assoc. reflexivity.
Qed.

Lemma status_of_terminal (r : BackendReport) :
  is_terminal (status_of r) = true.
Proof. destruct r; reflexivity. Qed.

End RosFacts.

Module TraceFacts.
Import Msgs Execution Ros Trace.

Lemma without_console_app (l1 l2 : list Event) :
  without_console (l1 ++ l2) = without_console l1 ++ without_console l2.
Proof. apply filter_app. Qed.

End TraceFacts.

(** ** pick_and_place_node: what a run does *)

Module PickAndPlaceFacts.
Import Msgs Execution Ros Trace PickAndPlaceNode PickAndPlaceTrace.
Import RosFacts TraceFacts.

Lemma printed_controllers_console (l : list string) :
  forallb is_console (map print_controller l) = true.
Proof. induction l; simpl; auto. Qed.

Lemma printControllers_run (env : Env) (w : World) :
  printControllers env w =
  (tt, mkWorld (scene_readers w) (exec_queue w) (exec_status w)
               (log w ++ controllers_report env)).
Proof.
  destruct w as [readers queue status events].
  unfold printControllers, controllers_report, bind. simpl.
  rewrite for_each_emit. simpl. rewrite for_each_emit. simpl.
  repeat rewrite <- app_assoc. reflexivity.
Qed.

Lemma locked_generatePlan_run (env : Env) (req : MotionPlanRequest)
      (w : World) :
  locked_generatePlan env req w =
  (generatePlan env req,
   mkWorld (scene_readers w) (exec_queue w) (exec_status w)
           (log w ++ planning req)).
Proof.
  destruct w as [readers queue status events].
  unfold locked_generatePlan, planning, bind. simpl.
  repeat rewrite <- app_assoc. reflexivity.
Qed.

(** The run in which the planner does not report success. *)
Lemma node_run_failure (env : Env) :
  plan_code env <> SUCCESS env ->
  main env boot =
  (0, mkWorld 0 [] [] (startup ++ planning build_request ++ failure_report)).
Proof.
  intros Hcode. apply Z.eqb_neq in Hcode. unfold plan_code, plan_result in Hcode.
  unfold main.
  cbn -[build_request locked_generatePlan String.append endl for_each
        printControllers].
  unfold bind at 1. rewrite locked_generatePlan_run.
  cbn -[build_request String.append endl for_each printControllers].
  rewrite Hcode. reflexivity.
Qed.

(** The run in which the planner reports success. *)
Lemma node_run_success (env : Env) :
  plan_code env = SUCCESS env ->
  main env boot =
  (0, mkWorld 0 [] [pending; running; final_status env]
        (startup ++ planning build_request
         ++ visualization (plan_result env)
         ++ execution_setup
         ++ controllers_report env
         ++ execution (trajectory_ (plan_result env)) (final_status env)
         ++ farewell)).
Proof.
  intros Hcode. apply Z.eqb_eq in Hcode. unfold plan_code in Hcode.
  unfold final_status. unfold plan_result in *.
  unfold main.
  cbn -[build_request locked_generatePlan String.append endl for_each
        printControllers controllers_report].
  unfold bind at 1. rewrite locked_generatePlan_run.
  cbn -[build_request String.append endl for_each printControllers
        controllers_report].
  rewrite Hcode.
  cbn -[build_request String.append endl for_each printControllers
        controllers_report].
  unfold bind at 1. rewrite printControllers_run.
  cbn -[build_request String.append endl for_each printControllers
        controllers_report].
  generalize (controllers_report env) as report. intros report.
  repeat rewrite <- app_assoc. reflexivity.
Qed.

End PickAndPlaceFacts.

Module ControllersReportFacts.
Import Msgs Execution Ros Trace PickAndPlaceNode PickAndPlaceTrace.
Import RosFacts TraceFacts PickAndPlaceFacts.

(** A filter that keeps nothing a human reader is shown keeps nothing of
    a list of console output. *)
Lemma filter_console (P : Event -> bool) (l : list Event) :
  (forall e, is_console e = true -> P e = false) ->
  forallb is_console l = true -> filter P l = [].
Proof.
  intros HP. induction l as [|x l IH]; simpl; intros H; [reflexivity|].
  apply andb_true_iff in H. destruct H as [Hx Hl].
  rewrite (HP x Hx). auto.
Qed.

(** The report without its console output: the two queries. *)
Lemma controllers_report_without_console (env : Env) :
  without_console (controllers_report env) =
  [EGetActiveControllers; EGetControllersList].
Proof.
  unfold controllers_report, without_console. simpl.
  rewrite filter_app. simpl. rewrite !filter_console; auto using printed_controllers_console.
  all: intros e He; rewrite He; reflexivity.
Qed.

Lemma controllers_report_filter (P : Event -> bool) (env : Env) :
  (forall e, is_console e = true -> P e = false) ->
  filter P (controllers_report env) =
  filter P [EGetActiveControllers; EGetControllersList].
Proof.
  intros HP. unfold controllers_report.
  rewrite filter_app. simpl.
  rewrite (HP (ELog Info _ _) eq_refl).
  rewrite filter_app. simpl. rewrite (HP (ELog Info _ _) eq_refl).
  rewrite !(filter_console P) by auto using printed_controllers_console.
  destruct (P EGetActiveControllers), (P EGetControllersList); reflexivity.
Qed.

Lemma controllers_report_diagnostic (env : Env) :
  forallb (fun e => is_controller_query e || is_console e)
          (controllers_report env) = true.
Proof.
  unfold controllers_report. simpl. rewrite forallb_app. simpl.
  assert (H : forall l, forallb (fun e => is_controller_query e || is_console e)
                                (map print_controller l) = true)
    by (induction l; simpl; auto).
  rewrite !H. reflexivity.
Qed.

End ControllersReportFacts.

(** ** plan_and_execute: what a run does *)

Module PlanAndExecuteFacts.
Import Msgs Execution Ros Trace PlanAndExecute PlanAndExecuteTrace.

(** The user stops the run at the first prompt. *)
Lemma tacbot_run_declined (env : Env) :
  promptUserInput env 0 = false ->
  main env boot = (0, mkWorld 0 [] [] (startup env ++ [EPrompt false])).
Proof.
  intros Hprompt. unfold main.
  cbn -[build_request String.append endl].
  rewrite Hprompt. reflexivity.
Qed.

(** The planner does not report success. *)
Lemma tacbot_run_failure (env : Env) :
  promptUserInput env 0 = true ->
  plan_code env <> SUCCESS env ->
  main env boot =
  (1, mkWorld 0 [] []
        (startup env ++ [EPrompt true] ++ planning (build_request env)
         ++ failure_report (plan_code env))).
Proof.
  intros Hprompt Hcode. apply Z.eqb_neq in Hcode.
  unfold plan_code, plan_result in *. unfold main.
  cbn -[build_request String.append endl].
  rewrite Hprompt.
  cbn -[build_request String.append endl].
  rewrite Hcode. reflexivity.
Qed.

(** The planner reports success. *)
Lemma tacbot_run_success (env : Env) :
  promptUserInput env 0 = true ->
  plan_code env = SUCCESS env ->
  main env boot =
  (0, mkWorld 0 [] []
        (startup env ++ [EPrompt true] ++ planning (build_request env)
         ++ visualization env (plan_result env) ++ farewell)).
Proof.
  intros Hprompt Hcode. apply Z.eqb_eq in Hcode.
  unfold plan_code, plan_result in *. unfold main.
  cbn -[build_request String.append endl].
  rewrite Hprompt.
  cbn -[build_request String.append endl].
  rewrite Hcode. reflexivity.
Qed.

End PlanAndExecuteFacts.

(** ** Planning: the lock, the request, and a failed plan *)

Module PlanningFacts.
Import Msgs Execution Ros Trace NodeWithExceptions.
Import RosFacts TraceFacts PickAndPlaceFacts ControllersReportFacts.
Local Open Scope string_scope.
Local Open Scope list_scope.

Lemma node_scene_free (env : N.Env) :
  scene_readers (snd (N.main env boot)) = 0%nat.
Proof.
  destruct (Z.eq_dec (NT.plan_code env) (N.SUCCESS env)) as [Hok | Hko].
  - rewrite (node_run_success env Hok). reflexivity.
  - rewrite (node_run_failure env Hko). reflexivity.
Qed.

Lemma skipn_length_app {A : Type} (l evs : list A) :
  skipn (List.length l) (l ++ evs) = evs.
Proof. induction l; simpl; auto. Qed.

(** A step that appends [evs] to the log notes them with the lock count
    it leaves. *)
Lemma observe_appending {A : Type} (c : M A) (o : Observed) (a : A)
      (w' : World) (evs : list Event) :
  c (world o) = (a, w') ->
  log w' = log (world o) ++ evs ->
  observe c o
  = (Normal a, mkObserved w' (observed o ++ stamped (scene_readers w') evs)).
Proof.
  intros Hrun Hlog. unfold observe. rewrite Hrun, Hlog, skipn_length_app.
  reflexivity.
Qed.

Lemma bindX_observe {A B : Type} (c : M A) (k : A -> MX B) (o : Observed)
      (a : A) (w' : World) (evs : list Event) :
  c (world o) = (a, w') ->
  log w' = log (world o) ++ evs ->
  bindX (observe c) k o
  = k a (mkObserved w' (observed o ++ stamped (scene_readers w') evs)).
Proof.
  intros Hrun Hlog. unfold bindX.
  rewrite (observe_appending c o a w' evs Hrun Hlog). reflexivity.
Qed.

Lemma promptAnyInput_run (w : World) :
  N.promptAnyInput w
  = (tt, mkWorld (scene_readers w) (exec_queue w) (exec_status w)
                 (log w ++ [EStdout endl;
                            EStdout "Press any key to continue: ";
                            EGetchar])).
Proof.
  destruct w as [readers queue status events].
  unfold N.promptAnyInput, bind. simpl.
  repeat rewrite <- app_assoc. reflexivity.
Qed.

Ltac observed_step :=
  erewrite bindX_observe;
  [ | cbn -[N.build_request String.append endl NT.controllers_report];
      reflexivity
    | cbn -[N.build_request String.append endl NT.controllers_report];
      reflexivity ].

(** The block on its own, from any world. *)
Lemma locked_generatePlan_observed (x : Env) (req : MotionPlanRequest)
      (o : Observed) :
  locked_generatePlan x req o
  = (if planner_throws x req
     then if unwinds_before_terminate x then Unwinding else Terminated
     else Normal (N.generatePlan (collaborators x) req),
     mkObserved
       (mkWorld (if planner_throws x req && negb (unwinds_before_terminate x)
                 then S (scene_readers (world o))
                 else scene_readers (world o))
                (exec_queue (world o)) (exec_status (world o))
                (log (world o)
                 ++ ELockSceneRO :: EGeneratePlan req
                    :: (if planner_throws x req
                           && negb (unwinds_before_terminate x)
                        then [] else [EUnlockSceneRO])))
       (observed o
        ++ (ELockSceneRO, S (scene_readers (world o)))
           :: (EGeneratePlan req, S (scene_readers (world o)))
           :: (if planner_throws x req && negb (unwinds_before_terminate x)
               then [] else [(EUnlockSceneRO, scene_readers (world o))]))).
Proof.
  destruct o as [[readers queue status events] obs].
  unfold locked_generatePlan, scoped_LockedPlanningSceneRO, generatePlan.
  rewrite (observe_appending lock_scene_ro _ tt
             (mkWorld (S readers) queue status (events ++ [ELockSceneRO]))
             [ELockSceneRO]) by reflexivity.
  cbn [snd].
  erewrite bindX_observe; [ | reflexivity | reflexivity ].
  cbn [world log scene_readers exec_queue exec_status observed stamped map].
  unfold throw_unhandled, retX.
  destruct (planner_throws x req); [destruct (unwinds_before_terminate x)|];
    cbn [andb negb].
  - rewrite (observe_appending unlock_scene_ro _ tt
               (mkWorld readers queue status
                        ((events ++ [ELockSceneRO]) ++ [EGeneratePlan req]
                         ++ [EUnlockSceneRO]))
               [EUnlockSceneRO])
      by (cbn; rewrite <- !app_assoc; reflexivity).
    cbn [snd stamped map scene_readers observed].
    rewrite <- !app_assoc. reflexivity.
  - rewrite <- !app_assoc. reflexivity.
  - rewrite (observe_appending unlock_scene_ro _ tt
               (mkWorld readers queue status
                        ((events ++ [ELockSceneRO]) ++ [EGeneratePlan req]
                         ++ [EUnlockSceneRO]))
               [EUnlockSceneRO])
      by (cbn; rewrite <- !app_assoc; reflexivity).
    cbn [snd stamped map scene_readers observed].
    rewrite <- !app_assoc. reflexivity.
Qed.

(** The run in which the planner call throws. *)
Lemma run_planner_throws (x : Env) :
  planner_throws x N.build_request = true ->
  run x
  = (Terminated,
     mkObserved
       (mkWorld (if unwinds_before_terminate x then 0 else 1)%nat [] []
                (NT.startup ++ ELockSceneRO :: EGeneratePlan N.build_request
                 :: (if unwinds_before_terminate x
                     then [EUnlockSceneRO] else [])))
       (stamped 0 NT.startup
        ++ (ELockSceneRO, 1%nat) :: (EGeneratePlan N.build_request, 1%nat)
           :: (if unwinds_before_terminate x
               then [(EUnlockSceneRO, 0%nat)] else []))).
Proof.
  intros Hthrow. unfold run, main.
  do 17 observed_step.
  unfold bindX at 1. rewrite locked_generatePlan_observed, Hthrow.
  destruct (unwinds_before_terminate x); reflexivity.
Qed.

(** The run in which the planner returns without success. *)
Lemma run_planner_fails (x : Env) :
  planner_throws x N.build_request = false ->
  NT.plan_code (collaborators x) <> N.SUCCESS (collaborators x) ->
  run x
  = (Normal 0,
     mkObserved (snd (N.main (collaborators x) boot))
                (noted_planning ++ stamped 0 NT.failure_report)).
Proof.
  intros Hthrow Hko. rewrite (node_run_failure _ Hko).
  apply Z.eqb_neq in Hko. unfold NT.plan_code, NT.plan_result in Hko.
  unfold run, main.
  do 17 observed_step.
  unfold bindX at 1. rewrite locked_generatePlan_observed, Hthrow.
  cbn -[N.build_request String.append endl NT.controllers_report observe].
  rewrite Hko.
  cbn -[N.build_request String.append endl NT.controllers_report observe].
  observed_step. reflexivity.
Qed.

(** The run in which the planner returns with success. *)
Lemma run_planner_succeeds (x : Env) :
  planner_throws x N.build_request = false ->
  NT.plan_code (collaborators x) = N.SUCCESS (collaborators x) ->
  run x
  = (Normal 0,
     mkObserved (snd (N.main (collaborators x) boot))
                (noted_planning
                 ++ stamped 0 (NT.visualization
                                 (NT.plan_result (collaborators x))
                               ++ NT.execution_setup
                               ++ NT.controllers_report (collaborators x)
                               ++ NT.execution
                                    (trajectory_
                                       (NT.plan_result (collaborators x)))
                                    (NT.final_status (collaborators x))
                               ++ NT.farewell))).
Proof.
  intros Hthrow Hok. rewrite (node_run_success _ Hok).
  apply Z.eqb_eq in Hok. unfold NT.plan_code in Hok.
  unfold NT.final_status. unfold NT.plan_result in *.
  unfold run, main.
  do 17 observed_step.
  unfold bindX at 1. rewrite locked_generatePlan_observed, Hthrow.
  cbn -[N.build_request String.append endl NT.controllers_report observe
        N.printControllers N.promptAnyInput].
  rewrite Hok.
  cbn -[N.build_request String.append endl NT.controllers_report observe
        N.printControllers N.promptAnyInput].
  do 9 observed_step.
  erewrite bindX_observe;
    [ | apply printControllers_run
      | cbn -[N.build_request String.append endl NT.controllers_report];
        reflexivity ].
  do 3 observed_step.
  erewrite bindX_observe;
    [ | apply promptAnyInput_run
      | cbn -[N.build_request String.append endl NT.controllers_report];
        reflexivity ].
  observed_step.
  cbn -[N.build_request String.append endl NT.controllers_report].
  unfold stamped. generalize (NT.controllers_report (collaborators x)).
  intros report. rewrite !map_app.
  repeat rewrite <- app_assoc. reflexivity.
Qed.

Lemma stamped_disciplined (events : list Event) :
  forallb (fun e => Nat.eqb (held_during e) 0) events = true ->
  Forall (fun en => snd en = held_during (fst en)) (stamped 0 events).
Proof.
  induction events as [|e events IH]; simpl; intros H; constructor.
  - apply andb_true_iff in H. destruct H as [He _].
    apply Nat.eqb_eq in He. simpl. symmetry. exact He.
  - apply IH. apply andb_true_iff in H. apply H.
Qed.

Lemma controllers_report_unlocked (env : N.Env) :
  forallb (fun e => Nat.eqb (held_during e) 0) (NT.controllers_report env)
  = true.
Proof.
  unfold NT.controllers_report. simpl. rewrite forallb_app. simpl.
  assert (H : forall l, forallb (fun e => Nat.eqb (held_during e) 0)
                                (map NT.print_controller l) = true)
    by (induction l; simpl; auto).
  rewrite !H. reflexivity.
Qed.

Lemma stamped_events (held : nat) (events : list Event) :
  map fst (stamped held events) = events.
Proof.
  unfold stamped. rewrite map_map. simpl. apply map_id.
Qed.

(** A run in which the planner call throws and the implementation calls
    [std::terminate] without unwinding: the program has ended with the
    read lock taken and never given back. *)
Lemma lock_still_held_when_the_planner_throws :
  fst (run throwing_without_unwinding) = Terminated
  /\ scene_readers (world (snd (run throwing_without_unwinding))) = 1%nat
  /\ scene_writable (world (snd (run throwing_without_unwinding))) = false
  /\ last (log (world (snd (run throwing_without_unwinding)))) EGetchar
     = EGeneratePlan N.build_request.
Proof. repeat split; vm_compute; reflexivity. Qed.

(** C1, as amended: in pick_and_place_node the read lock on the planning
    scene is taken at the start of the block around the planner call and
    given back when the planner returns, whatever status it reports: in
    the world one lock is held when the lock is taken and when the planner
    is called and none at any other event of a run, so none at a
    visualization or execution call, and none when the run has returned,
    so the lock can be taken again straight after a plan that failed. When
    the planner call throws, [main] has no handler and the program
    terminates without any visualization or execution; the lock has been
    given back by then only if the implementation unwinds the stack
    before it terminates. *)
Theorem read_lock_is_scoped_to_the_planner_call
        (x : Env) (req : MotionPlanRequest) (o : Observed) :
  fst (locked_generatePlan x req o)
  = (if planner_throws x req
     then if unwinds_before_terminate x then Unwinding else Terminated
     else Normal (N.generatePlan (collaborators x) req))
  /\ observed (snd (locked_generatePlan x req o))
     = observed o
       ++ (ELockSceneRO, S (scene_readers (world o)))
          :: (EGeneratePlan req, S (scene_readers (world o)))
          :: (if planner_throws x req && negb (unwinds_before_terminate x)
              then [] else [(EUnlockSceneRO, scene_readers (world o))])
  /\ scene_readers (world (snd (locked_generatePlan x req o)))
     = (if planner_throws x req && negb (unwinds_before_terminate x)
        then S (scene_readers (world o)) else scene_readers (world o))
  /\ Forall (fun en => snd en = held_during (fst en)) (observed (snd (run x)))
  /\ map fst (observed (snd (run x))) = log (world (snd (run x)))
  /\ (if planner_throws x N.build_request
      then fst (run x) = Terminated
           /\ scene_readers (world (snd (run x)))
              = (if unwinds_before_terminate x then 0 else 1)%nat
           /\ existsb (fun e => is_visual e || is_exec e)
                      (log (world (snd (run x)))) = false
      else fst (run x) = Normal (fst (N.main (collaborators x) boot))
           /\ world (snd (run x)) = snd (N.main (collaborators x) boot)
           /\ scene_readers (world (snd (run x))) = 0%nat
           /\ scene_writable (world (snd (run x))) = true).
Proof.
  rewrite locked_generatePlan_observed. cbn [fst snd observed world scene_readers].
  split; [reflexivity|]. split; [reflexivity|]. split; [reflexivity|].
  destruct (planner_throws x N.build_request) eqn:Hthrow.
  - rewrite (run_planner_throws x Hthrow).
    cbn [fst snd observed world scene_readers log].
    split; [|split; [|split; [reflexivity|split; [reflexivity|]]]].
    + apply Forall_app. split.
      * apply stamped_disciplined. reflexivity.
      * destruct (unwinds_before_terminate x); repeat constructor.
    + rewrite map_app, stamped_events.
      destruct (unwinds_before_terminate x); reflexivity.
    + rewrite existsb_app.
      destruct (unwinds_before_terminate x); reflexivity.
  - destruct (Z.eq_dec (NT.plan_code (collaborators x))
                       (N.SUCCESS (collaborators x))) as [Hok | Hko].
    + rewrite (run_planner_succeeds x Hthrow Hok).
      cbn [fst snd observed world].
      split; [|split; [|split; [|split; [reflexivity|split]]]].
      * unfold noted_planning. rewrite !Forall_app. split; [split|].
        -- apply stamped_disciplined. reflexivity.
        -- repeat constructor.
        -- apply stamped_disciplined. rewrite !forallb_app.
           rewrite controllers_report_unlocked. reflexivity.
      * unfold noted_planning. rewrite !map_app, !stamped_events.
        rewrite (node_run_success _ Hok). cbn [snd log].
        rewrite <- !app_assoc. reflexivity.
      * rewrite (node_run_success _ Hok). reflexivity.
      * apply node_scene_free.
      * unfold scene_writable. rewrite node_scene_free. reflexivity.
    + rewrite (run_planner_fails x Hthrow Hko).
      cbn [fst snd observed world].
      split; [|split; [|split; [|split; [reflexivity|split]]]].
      * unfold noted_planning. rewrite !Forall_app. split; [split|].
        -- apply stamped_disciplined. reflexivity.
        -- repeat constructor.
        -- apply stamped_disciplined. reflexivity.
      * unfold noted_planning. rewrite !map_app, !stamped_events.
        rewrite (node_run_failure _ Hko). cbn [snd log].
        rewrite <- !app_assoc. reflexivity.
      * rewrite (node_run_failure _ Hko). reflexivity.
      * apply node_scene_free.
      * unfold scene_writable. rewrite node_scene_free. reflexivity.
Qed.

End PlanningFacts.

Module FailureFacts.
Import Msgs Execution Ros Trace.
Import RosFacts TraceFacts PickAndPlaceFacts PlanAndExecuteFacts.
Local Open Scope string_scope.
Local Open Scope list_scope.

(** C2: when the planner reports a code other than success, the response
    the locked block hands back carries that code as a plain value, and
    the run stops there and returns from [main]: pick_and_place_node logs
    the error and returns 0, plan_and_execute logs the error with the code
    and returns 1. After the planner call nothing but that log line
    happens: no trajectory is displayed, nothing reaches the execution
    side, and no execution is ever created. (What plan_and_execute shows
    of the goal and the obstacles, it shows before it calls the planner.) *)
Theorem planning_failure_is_reported_and_stops_the_run
        (env : N.Env) (tenv : T.Env) :
  NT.plan_code env <> N.SUCCESS env ->
  T.promptUserInput tenv 0 = true ->
  TT.plan_code tenv <> T.SUCCESS tenv ->
  (forall w,
      val (error_code_ (fst (N.locked_generatePlan env N.build_request w)))
      = NT.plan_code env)
  /\ fst (N.main env boot) = 0
  /\ log (snd (N.main env boot))
     = NT.startup
       ++ [ELockSceneRO; EGeneratePlan N.build_request; EUnlockSceneRO]
       ++ [ELog Error "Could not compute plan successfully" []]
  /\ existsb (fun e => is_visual e || is_exec e) (log (snd (N.main env boot)))
     = false
  /\ exec_status (snd (N.main env boot)) = []
  /\ fst (T.main tenv boot) = 1
  /\ log (snd (T.main tenv boot))
     = TT.startup tenv ++ [EPrompt true]
       ++ TT.planning (T.build_request tenv)
       ++ [ELog Error "Could not compute plan successfully. Error code: %d"
                [ArgInt (TT.plan_code tenv)]]
  /\ last (TT.planning (T.build_request tenv)) EGetchar
     = EGeneratePlan (T.build_request tenv)
  /\ filter (fun e => is_visual e || is_planner_call e)
            (log (snd (T.main tenv boot)))
     = [EVisual (visualizeGoalState (T.getJointNames tenv)
                                    (T.getJointGoalPos tenv));
        EVisual (visualizeObstacleMarker (T.getObstaclePos tenv));
        EGeneratePlan (T.build_request tenv)]
  /\ existsb (fun e => is_trajectory_display e || is_exec e)
             (log (snd (T.main tenv boot))) = false
  /\ exec_status (snd (T.main tenv boot)) = [].
Proof.
  intros Hnode Hprompt Htacbot.
  rewrite (node_run_failure env Hnode).
  rewrite (tacbot_run_failure tenv Hprompt Htacbot).
  split; [|repeat split].
  intros w. rewrite locked_generatePlan_run. reflexivity.
Qed.

Lemma planning_failure_is_reported_and_stops_the_run_witness :
  (forall w,
      val (error_code_
             (fst (N.locked_generatePlan Samples.node_failing
                                         N.build_request w)))
      = NT.plan_code Samples.node_failing)
  /\ fst (N.main Samples.node_failing boot) = 0
  /\ log (snd (N.main Samples.node_failing boot))
     = NT.startup
       ++ [ELockSceneRO; EGeneratePlan N.build_request; EUnlockSceneRO]
       ++ [ELog Error "Could not compute plan successfully" []]
  /\ existsb (fun e => is_visual e || is_exec e)
             (log (snd (N.main Samples.node_failing boot))) = false
  /\ exec_status (snd (N.main Samples.node_failing boot)) = []
  /\ fst (T.main Samples.tacbot_failing boot) = 1
  /\ log (snd (T.main Samples.tacbot_failing boot))
     = TT.startup Samples.tacbot_failing ++ [EPrompt true]
       ++ TT.planning (T.build_request Samples.tacbot_failing)
       ++ [ELog Error "Could not compute plan successfully. Error code: %d"
                [ArgInt (TT.plan_code Samples.tacbot_failing)]]
  /\ last (TT.planning (T.build_request Samples.tacbot_failing)) EGetchar
     = EGeneratePlan (T.build_request Samples.tacbot_failing)
  /\ filter (fun e => is_visual e || is_planner_call e)
            (log (snd (T.main Samples.tacbot_failing boot)))
     = [EVisual (visualizeGoalState (T.getJointNames Samples.tacbot_failing)
                                    (T.getJointGoalPos Samples.tacbot_failing));
        EVisual (visualizeObstacleMarker
                   (T.getObstaclePos Samples.tacbot_failing));
        EGeneratePlan (T.build_request Samples.tacbot_failing)]
  /\ existsb (fun e => is_trajectory_display e || is_exec e)
             (log (snd (T.main Samples.tacbot_failing boot))) = false
  /\ exec_status (snd (T.main Samples.tacbot_failing boot)) = [].
Proof.
  apply (planning_failure_is_reported_and_stops_the_run
           Samples.node_failing Samples.tacbot_failing).
  - vm_compute. discriminate.
  - reflexivity.
  - vm_compute. discriminate.
Defined.

End FailureFacts.

Module RequestFacts.
Import Msgs Execution Ros Trace.
Import RosFacts TraceFacts PickAndPlaceFacts ControllersReportFacts.
Import PlanAndExecuteFacts.
Local Open Scope string_scope.
Local Open Scope list_scope.

(** C8: the request either program hands to its planner carries a group
    name, one goal pushed by the program, a planner identifier, a positive
    time budget (5 seconds in pick_and_place_node, 10 in plan_and_execute)
    and the two scaling factors (left at the zero a fresh request has in
    pick_and_place_node, 0.5 each in plan_and_execute). A run hands a
    request over once, complete: pick_and_place_node in its one planner
    call, plan_and_execute when it creates the planning context its one
    planner call works on, and not at all when the user stops the run at
    the first prompt. *)
Theorem request_is_complete_and_built_once (env : N.Env) (tenv : T.Env) :
  N.build_request
  = mkMotionPlanRequest
      RobotState_default
      [constructGoalConstraints "panda_link8" N.goal_pose
                                [0.01; 0.01; 0.01]%float
                                [0.01; 0.01; 0.01]%float]
      "panda_arm[EST]" "panda_arm" 5 0 0
  /\ (0 <? allowed_planning_time N.build_request)%float = true
  /\ filter uses_request (log (snd (N.main env boot)))
     = [EGeneratePlan N.build_request]
  /\ group_name (T.build_request tenv) = T.getGroupName tenv
  /\ goal_constraints (T.build_request tenv)
     = goal_constraints (T.setCurToStartState tenv MotionPlanRequest_default)
       ++ [T.createJointGoal tenv]
  /\ planner_id (T.build_request tenv) = T.getPlannerId tenv
  /\ allowed_planning_time (T.build_request tenv) = 10%float
  /\ (0 <? allowed_planning_time (T.build_request tenv))%float = true
  /\ max_velocity_scaling_factor (T.build_request tenv) = 0.5%float
  /\ max_acceleration_scaling_factor (T.build_request tenv) = 0.5%float
  /\ filter uses_request (log (snd (T.main tenv boot)))
     = (if T.promptUserInput tenv 0
        then [ECreatePlanningContext (T.build_request tenv);
              EGeneratePlan (T.build_request tenv)]
        else []).
Proof.
  split; [reflexivity|]. split; [reflexivity|]. split.
  { destruct (Z.eq_dec (NT.plan_code env) (N.SUCCESS env)) as [Hok | Hko].
    - rewrite (node_run_success env Hok).
      cbn -[NT.controllers_report N.build_request].
      rewrite filter_app, controllers_report_filter; [reflexivity|].
      intros e He. destruct e; try discriminate; reflexivity.
    - rewrite (node_run_failure env Hko). reflexivity. }
  repeat (split; [reflexivity|]).
  destruct (T.promptUserInput tenv 0) eqn:Hprompt.
  - destruct (Z.eq_dec (TT.plan_code tenv) (T.SUCCESS tenv)) as [Hok | Hko].
    + rewrite (tacbot_run_success tenv Hprompt Hok). reflexivity.
    + rewrite (tacbot_run_failure tenv Hprompt Hko). reflexivity.
  - rewrite (tacbot_run_declined tenv Hprompt). reflexivity.
Qed.

End RequestFacts.

Module ExecutionFacts.
Import Msgs Execution Ros Trace.
Import RosFacts TraceFacts PickAndPlaceFacts ControllersReportFacts.
Import PlanAndExecuteFacts.
Local Open Scope string_scope.
Local Open Scope list_scope.

(** A run of plan_and_execute in which the user lets the planner run and
    the planner succeeds: the program returns 0 and nothing has reached
    the execution side. A successful plan is not always executed. *)
Lemma tacbot_plans_but_never_executes :
  T.promptUserInput Samples.tacbot_ok 0 = true
  /\ TT.plan_code Samples.tacbot_ok = T.SUCCESS Samples.tacbot_ok
  /\ fst (T.main Samples.tacbot_ok boot) = 0
  /\ existsb is_exec (log (snd (T.main Samples.tacbot_ok boot))) = false
  /\ exec_status (snd (T.main Samples.tacbot_ok boot)) = [].
Proof. repeat split; vm_compute; reflexivity. Qed.

(** C3, as amended: when planning succeeds in pick_and_place_node, the
    planned trajectory is published for display, then pushed to the
    execution manager, which runs it from pending through running to a
    terminal status before the program prints its last line and returns.
    When planning succeeds in plan_and_execute, the planned and the raw
    trajectory are displayed and the program returns without anything
    reaching the execution side: that part sits behind a flag set to
    false. *)
Theorem successful_plan_is_displayed_then_executed_by_the_node
        (env : N.Env) (tenv : T.Env) :
  NT.plan_code env = N.SUCCESS env ->
  T.promptUserInput tenv 0 = true ->
  TT.plan_code tenv = T.SUCCESS tenv ->
  fst (N.main env boot) = 0
  /\ log (snd (N.main env boot))
     = NT.startup ++ NT.planning N.build_request
       ++ NT.visualization (NT.plan_result env)
       ++ NT.execution_setup
       ++ NT.controllers_report env
       ++ NT.execution (trajectory_ (NT.plan_result env)) (NT.final_status env)
       ++ NT.farewell
  /\ filter (fun e => is_trajectory_display e || is_exec e)
            (log (snd (N.main env boot)))
     = [EVisual (publishDisplayTrajectory
                   (mkDisplayTrajectory (start_ (NT.plan_result env))
                                        [trajectory_ (NT.plan_result env)]));
        EVisual (publishTrajectoryLine (trajectory_ (NT.plan_result env)));
        EExec (push (trajectory_ (NT.plan_result env)));
        EExec (executeAndWait (NT.final_status env))]
  /\ exec_status (snd (N.main env boot))
     = [pending; running; NT.final_status env]
  /\ is_terminal (NT.final_status env) = true
  /\ exec_queue (snd (N.main env boot)) = []
  /\ last (log (snd (N.main env boot))) EGetchar
     = EStdout ("Finished!" ++ endl)%string
  /\ fst (T.main tenv boot) = 0
  /\ filter (fun e => is_trajectory_display e || is_exec e)
            (log (snd (T.main tenv boot)))
     = [EVisual (visualizeTrajectory (getMessage (TT.plan_result tenv))
                                     "planned_path");
        EVisual (visualizeTrajectory
                   (T.raw_plan_resp_ tenv (T.build_request tenv))
                   "raw_path")]
  /\ existsb is_exec (log (snd (T.main tenv boot))) = false
  /\ exec_status (snd (T.main tenv boot)) = [].
Proof.
  intros Hnode Hprompt Htacbot.
  rewrite (node_run_success env Hnode).
  rewrite (tacbot_run_success tenv Hprompt Htacbot).
  split; [reflexivity|]. split; [reflexivity|]. split.
  { cbn -[NT.controllers_report N.build_request String.append].
    rewrite filter_app, controllers_report_filter; [reflexivity|].
    intros e He. destruct e; try discriminate; reflexivity. }
  split; [reflexivity|]. split; [apply status_of_terminal|].
  split; [reflexivity|]. split; [|repeat split].
  cbv beta iota delta [snd log].
  change (NT.farewell) with
    ([EStdout endl; EStdout "Press any key to continue: "; EGetchar]
     ++ [EStdout ("Finished!" ++ endl)%string]).
  rewrite !app_assoc. apply last_last.
Qed.

Lemma successful_plan_is_displayed_then_executed_by_the_node_witness :
  fst (N.main Samples.node_ok boot) = 0
  /\ exec_status (snd (N.main Samples.node_ok boot))
     = [pending; running; succeeded]
  /\ existsb is_exec (log (snd (T.main Samples.tacbot_ok boot))) = false.
Proof.
  pose proof (successful_plan_is_displayed_then_executed_by_the_node
                Samples.node_ok Samples.tacbot_ok
                eq_refl eq_refl eq_refl) as H.
  split; [apply H|]. split; apply H.
Defined.

End ExecutionFacts.

Module ControllerQueryFacts.
Import Msgs Execution Ros Trace.
Import RosFacts TraceFacts PickAndPlaceFacts ControllersReportFacts.
Local Open Scope string_scope.
Local Open Scope list_scope.

Lemma with_controllers_run (env : N.Env) (active known : list string) :
  fst (N.main (NT.with_controllers env active known) boot)
  = fst (N.main env boot)
  /\ without_console
       (log (snd (N.main (NT.with_controllers env active known) boot)))
     = without_console (log (snd (N.main env boot)))
  /\ exec_status (snd (N.main (NT.with_controllers env active known) boot))
     = exec_status (snd (N.main env boot))
  /\ exec_queue (snd (N.main (NT.with_controllers env active known) boot))
     = exec_queue (snd (N.main env boot))
  /\ scene_readers (snd (N.main (NT.with_controllers env active known) boot))
     = scene_readers (snd (N.main env boot)).
Proof.
  set (env' := NT.with_controllers env active known).
  destruct (Z.eq_dec (NT.plan_code env) (N.SUCCESS env)) as [Hok | Hko].
  - rewrite (node_run_success env Hok).
    rewrite (node_run_success env' Hok).
    cbv beta iota delta [fst snd log exec_status exec_queue scene_readers].
    split; [reflexivity|]. split; [|repeat split].
    rewrite !without_console_app, !controllers_report_without_console.
    reflexivity.
  - rewrite (node_run_failure env Hko).
    rewrite (node_run_failure env' Hko).
    repeat split.
Qed.

(** C10: [printControllers] asks the controller manager for its active and
    its known controllers and prints them; it changes nothing else in the
    world. In a run that reaches execution the two queries come first and
    the push and the blocking execution follow; in a run whose planning
    failed there is neither. What the lists contain decides nothing: with
    any other two lists the run returns the same code, does the same
    things but for its console output, and ends with the same execution
    statuses, queue and lock. *)
Theorem controller_query_is_diagnostic_only
        (env : N.Env) (active known : list string) (w : World) :
  scene_readers (snd (N.printControllers env w)) = scene_readers w
  /\ exec_queue (snd (N.printControllers env w)) = exec_queue w
  /\ exec_status (snd (N.printControllers env w)) = exec_status w
  /\ log (snd (N.printControllers env w)) = log w ++ NT.controllers_report env
  /\ forallb (fun e => is_controller_query e || is_console e)
             (NT.controllers_report env) = true
  /\ filter (fun e => is_controller_query e || is_exec e)
            (log (snd (N.main env boot)))
     = (if (NT.plan_code env =? N.SUCCESS env)%Z
        then [EGetActiveControllers; EGetControllersList;
              EExec (push (trajectory_ (NT.plan_result env)));
              EExec (executeAndWait (NT.final_status env))]
        else [])
  /\ fst (N.main (NT.with_controllers env active known) boot)
     = fst (N.main env boot)
  /\ without_console
       (log (snd (N.main (NT.with_controllers env active known) boot)))
     = without_console (log (snd (N.main env boot)))
  /\ exec_status (snd (N.main (NT.with_controllers env active known) boot))
     = exec_status (snd (N.main env boot))
  /\ exec_queue (snd (N.main (NT.with_controllers env active known) boot))
     = exec_queue (snd (N.main env boot))
  /\ scene_readers (snd (N.main (NT.with_controllers env active known) boot))
     = scene_readers (snd (N.main env boot)).
Proof.
  rewrite printControllers_run.
  repeat (split; [reflexivity|]).
  split; [apply controllers_report_diagnostic|].
  split; [|apply with_controllers_run].
  destruct (Z.eqb_spec (NT.plan_code env) (N.SUCCESS env)) as [Hok | Hko].
  - rewrite (node_run_success env Hok).
    cbn -[NT.controllers_report N.build_request String.append].
    rewrite filter_app, controllers_report_filter; [reflexivity|].
    intros e He. destruct e; try discriminate; reflexivity.
  - rewrite (node_run_failure env Hko). reflexivity.
Qed.

End ControllerQueryFacts.


(** ** std::map: lookup, assignment and the order of the keys *)

Module StdMapFacts.
Import StdMap.

Lemma ascii_compare_refl (a : Ascii.ascii) : Ascii.compare a a = Eq.
Proof. unfold Ascii.compare. apply N.compare_refl. Qed.

Lemma ascii_compare_lt_trans (a b c : Ascii.ascii) :
  Ascii.compare a b = Lt -> Ascii.compare b c = Lt -> Ascii.compare a c = Lt.
Proof.
  unfold Ascii.compare. rewrite !N.compare_lt_iff. apply N.lt_trans.
Qed.

Lemma string_compare_refl (s : string) : String.compare s s = Eq.
Proof.
  induction s as [|a s IH]; simpl; [reflexivity|].
  rewrite ascii_compare_refl. exact IH.
Qed.

Lemma string_compare_lt_trans (s1 : string) :
  forall s2 s3,
    String.compare s1 s2 = Lt -> String.compare s2 s3 = Lt ->
    String.compare s1 s3 = Lt.
Proof.
  induction s1 as [|a s1 IH]; intros [|b s2] [|c s3]; simpl;
    try discriminate; try reflexivity.
  destruct (Ascii.compare a b) eqn:Hab; try discriminate;
    destruct (Ascii.compare b c) eqn:Hbc; try discriminate; intros H1 H2.
  - apply Ascii.compare_eq_iff in Hab, Hbc. subst.
    rewrite ascii_compare_refl. eapply IH; eassumption.
  - apply Ascii.compare_eq_iff in Hab. subst. rewrite Hbc. reflexivity.
  - apply Ascii.compare_eq_iff in Hbc. subst. rewrite Hab. reflexivity.
  - rewrite (ascii_compare_lt_trans _ _ _ Hab Hbc). reflexivity.
Qed.

Lemma compare_lt_neq (s1 s2 : string) :
  String.compare s1 s2 = Lt -> String.eqb s1 s2 = false.
Proof.
  intros H. apply String.eqb_neq. intros ->.
  rewrite string_compare_refl in H. discriminate.
Qed.

Lemma compare_gt_neq (s1 s2 : string) :
  String.compare s1 s2 = Gt -> String.eqb s1 s2 = false.
Proof.
  intros H. apply String.eqb_neq. intros ->.
  rewrite string_compare_refl in H. discriminate.
Qed.

Lemma ltb_lt (s1 s2 : string) :
  String.ltb s1 s2 = true <-> String.compare s1 s2 = Lt.
Proof.
  unfold String.ltb. destruct (String.compare s1 s2); split;
    congruence.
Qed.

Section Values.
Context {V : Type}.

Lemma find_assign_same (key : string) (value : V) (m : t V) :
  find key (assign key value m) = Some value.
Proof.
  induction m as [|[k v] m IH]; simpl.
  - rewrite String.eqb_refl. reflexivity.
  - destruct (String.compare key k) eqn:Hcmp; simpl.
    + rewrite String.eqb_refl. reflexivity.
    + rewrite String.eqb_refl. reflexivity.
    + rewrite (compare_gt_neq _ _ Hcmp). exact IH.
Qed.

Lemma find_assign_other (key other : string) (value : V) (m : t V) :
  other <> key -> find other (assign key value m) = find other m.
Proof.
  intros Hneq. apply String.eqb_neq in Hneq.
  induction m as [|[k v] m IH]; simpl.
  - rewrite Hneq. reflexivity.
  - destruct (String.compare key k) eqn:Hcmp; simpl.
    + apply String.compare_eq_iff in Hcmp. subst k. rewrite Hneq. reflexivity.
    + rewrite Hneq. reflexivity.
    + rewrite IH. reflexivity.
Qed.

Lemma assign_assign (key : string) (v1 v2 : V) (m : t V) :
  assign key v2 (assign key v1 m) = assign key v2 m.
Proof.
  induction m as [|[k v] m IH]; simpl.
  - rewrite string_compare_refl. reflexivity.
  - destruct (String.compare key k) eqn:Hcmp; simpl.
    + rewrite string_compare_refl. reflexivity.
    + rewrite string_compare_refl. reflexivity.
    + rewrite Hcmp, IH. reflexivity.
Qed.

Lemma in_assign (key : string) (value : V) (m : t V) (entry : string * V) :
  In entry (assign key value m) -> entry = (key, value) \/ In entry m.
Proof.
  induction m as [|[k v] m IH]; simpl.
  - intros [H | []]. left. symmetry. exact H.
  - destruct (String.compare key k); simpl; intros [H | H]; auto.
    destruct (IH H); auto.
Qed.

(** In an ordered map every key after the first is above the first. *)
Lemma ordered_above (k : string) (v : V) (m : t V) :
  ordered ((k, v) :: m) = true ->
  forall k' v', In (k', v') m -> String.compare k k' = Lt.
Proof.
  revert k v. induction m as [|[k1 v1] m IH]; intros k v Hord k' v' Hin.
  - destruct Hin.
  - simpl in Hord. apply andb_true_iff in Hord. destruct Hord as [Hlt Hrest].
    apply ltb_lt in Hlt. destruct Hin as [Heq | Hin].
    + inversion Heq; subst. exact Hlt.
    + eapply string_compare_lt_trans; [exact Hlt|].
      eapply (IH k1 v1); [exact Hrest | exact Hin].
Qed.

Lemma ordered_tail (k : string) (v : V) (m : t V) :
  ordered ((k, v) :: m) = true -> ordered m = true.
Proof.
  simpl. intros H. apply andb_true_iff in H. apply H.
Qed.

Lemma find_above (key : string) (m : t V) :
  (forall k v, In (k, v) m -> String.compare key k = Lt) ->
  find key m = None.
Proof.
  induction m as [|[k v] m IH]; intros Habove; simpl; [reflexivity|].
  rewrite (compare_lt_neq key k) by (eapply Habove; left; reflexivity).
  apply IH. intros k' v' Hin. eapply Habove. right. exact Hin.
Qed.

Lemma ordered_assign (key : string) (value : V) (m : t V) :
  ordered m = true -> ordered (assign key value m) = true.
Proof.
  induction m as [|[k v] m IH]; intros Hord; [reflexivity|].
  cbn [assign]. destruct (String.compare key k) eqn:Hcmp.
  - apply String.compare_eq_iff in Hcmp. subst k. exact Hord.
  - cbn [ordered]. apply andb_true_iff. split; [|exact Hord].
    apply ltb_lt. exact Hcmp.
  - assert (Hkk : String.compare k key = Lt).
    { rewrite String.compare_antisym, Hcmp. reflexivity. }
    pose proof (IH (ordered_tail _ _ _ Hord)) as Hrest.
    cbn [ordered]. apply andb_true_iff. split; [|exact Hrest].
    destruct m as [|[k1 v1] m]; cbn [assign].
    + apply ltb_lt. exact Hkk.
    + destruct (String.compare key k1); apply ltb_lt; try exact Hkk.
      eapply (ordered_above k v); [exact Hord | left; reflexivity].
Qed.

Lemma size_assign (key : string) (value : V) (m : t V) :
  ordered m = true ->
  size (assign key value m)
  = match find key m with
    | Some _ => size m
    | None => S (size m)
    end.
Proof.
  unfold size.
  induction m as [|[k v] m IH]; intros Hord; [reflexivity|].
  cbn [assign find]. destruct (String.compare key k) eqn:Hcmp.
  - apply String.compare_eq_iff in Hcmp. subst k.
    rewrite String.eqb_refl. reflexivity.
  - rewrite (compare_lt_neq _ _ Hcmp).
    rewrite find_above; [reflexivity|].
    intros k' v' Hin. eapply string_compare_lt_trans; [exact Hcmp|].
    eapply ordered_above; eassumption.
  - rewrite (compare_gt_neq _ _ Hcmp). simpl.
    rewrite (IH (ordered_tail _ _ _ Hord)).
    destruct (find key m); reflexivity.
Qed.

End Values.

End StdMapFacts.

(** ** addPlannerConfigurationSettings and printPlannerConfigMap *)

Module PlannerConfigFacts.
Import Msgs Execution Ros StdMap StdMapFacts PickAndPlaceHelpers RosFacts.
Local Open Scope string_scope.
Local Open Scope list_scope.

Lemma add_with_type (m : PlannerConfigurationMap) (group_name type : string)
      (setting_map : StdMap.t string) :
  find "type" setting_map = Some type ->
  addPlannerConfigurationSettings m group_name setting_map
  = (Returned tt,
     assign (config_key group_name type)
            (mkSettings group_name type setting_map) m).
Proof.
  intros Htype. unfold addPlannerConfigurationSettings, at_.
  rewrite Htype. reflexivity.
Qed.

Lemma append_cancel_r (s1 : string) :
  forall s2 tail, (s1 ++ tail = s2 ++ tail)%string -> s1 = s2.
Proof.
  assert (Hlen : forall a b, String.length (a ++ b)%string
                             = (String.length a + String.length b)%nat).
  { induction a; simpl; intros; [reflexivity | rewrite IHa; reflexivity]. }
  induction s1 as [|a s1 IH]; intros [|b s2] tail H; simpl in H.
  - reflexivity.
  - apply (f_equal String.length) in H. simpl in H. rewrite Hlen in H. lia.
  - apply (f_equal String.length) in H. simpl in H. rewrite Hlen in H. lia.
  - injection H as -> H. f_equal. eapply IH. exact H.
Qed.

Lemma bracket_splits (g1 : string) :
  forall g2 r1 r2,
    bracket_free g1 = true -> bracket_free g2 = true ->
    (g1 ++ String (Ascii.ascii_of_nat 91) r1
     = g2 ++ String (Ascii.ascii_of_nat 91) r2)%string ->
    g1 = g2 /\ r1 = r2.
Proof.
  induction g1 as [|a g1 IH]; intros [|b g2] r1 r2 H1 H2 Heq;
    simpl in *.
  - injection Heq as ->. split; reflexivity.
  - injection Heq as <- _. rewrite Ascii.eqb_refl in H2. discriminate.
  - injection Heq as -> _. rewrite Ascii.eqb_refl in H1. discriminate.
  - injection Heq as -> Heq.
    apply andb_true_iff in H1, H2.
    destruct (IH g2 r1 r2 (proj2 H1) (proj2 H2) Heq) as [-> ->].
    split; reflexivity.
Qed.

Lemma config_key_inj (g1 t1 g2 t2 : string) :
  bracket_free g1 = true -> bracket_free g2 = true ->
  config_key g1 t1 = config_key g2 t2 -> g1 = g2 /\ t1 = t2.
Proof.
  intros H1 H2 Heq. unfold config_key in Heq. simpl in Heq.
  destruct (bracket_splits g1 g2 _ _ H1 H2 Heq) as [-> Htail].
  split; [reflexivity|]. eapply append_cancel_r. exact Htail.
Qed.

Lemma add_without_type
      (m : PlannerConfigurationMap) (group_name : string)
      (setting_map : StdMap.t string) :
  find "type" setting_map = None ->
  addPlannerConfigurationSettings m group_name setting_map
  = (Threw out_of_range, m).
Proof.
  intros Htype. unfold addPlannerConfigurationSettings, at_.
  rewrite Htype. reflexivity.
Qed.

(** X2: without a setting "type" the call throws [std::out_of_range] and
    the caller's map is left exactly as it was. *)
Theorem add_without_type_throws_and_keeps_the_map
        (m : PlannerConfigurationMap) (group_name : string)
        (setting_map : StdMap.t string) :
  find "type" setting_map = None ->
  addPlannerConfigurationSettings m group_name setting_map
  = (Threw out_of_range, m).
Proof.
  intros Htype. unfold addPlannerConfigurationSettings, at_.
  rewrite Htype. reflexivity.
Qed.

Lemma add_without_type_throws_and_keeps_the_map_witness :
  addPlannerConfigurationSettings [] "panda_arm" MoreSamples.untyped_settings
  = (Threw out_of_range, []).
Proof.
  apply (add_without_type_throws_and_keeps_the_map
           [] "panda_arm" MoreSamples.untyped_settings).
  reflexivity.
Defined.

(** X3: with a setting "type" the call returns; afterwards the map holds,
    under the key group[type], the group, the type as name and the whole
    settings map, and every other key has the entry it had before. *)
Theorem add_registers_under_group_and_type
        (m : PlannerConfigurationMap) (group_name type : string)
        (setting_map : StdMap.t string) :
  find "type" setting_map = Some type ->
  fst (addPlannerConfigurationSettings m group_name setting_map) = Returned tt
  /\ find (group_name ++ "[" ++ type ++ "]")%string
          (snd (addPlannerConfigurationSettings m group_name setting_map))
     = Some (mkSettings group_name type setting_map)
  /\ (forall other,
        other <> (group_name ++ "[" ++ type ++ "]")%string ->
        find other
             (snd (addPlannerConfigurationSettings m group_name setting_map))
        = find other m).
Proof.
  intros Htype. rewrite (add_with_type _ _ _ _ Htype). simpl fst. simpl snd.
  split; [reflexivity|]. split.
  - apply find_assign_same.
  - intros other Hother. apply find_assign_other. exact Hother.
Qed.

Lemma add_registers_under_group_and_type_witness :
  find "panda_arm[geometric::EST]"
       (snd (addPlannerConfigurationSettings
               [] "panda_arm" MoreSamples.est_settings))
  = Some (mkSettings "panda_arm" "geometric::EST" MoreSamples.est_settings).
Proof.
  apply (add_registers_under_group_and_type
           [] "panda_arm" "geometric::EST" MoreSamples.est_settings).
  reflexivity.
Defined.

(** X4: registering the same group and type again replaces the entry:
    two calls in a row leave the map the second call alone would leave,
    so repeating a call changes nothing. *)
Theorem add_again_replaces
        (m : PlannerConfigurationMap) (group_name type : string)
        (first second : StdMap.t string) :
  find "type" first = Some type ->
  find "type" second = Some type ->
  snd (addPlannerConfigurationSettings
         (snd (addPlannerConfigurationSettings m group_name first))
         group_name second)
  = snd (addPlannerConfigurationSettings m group_name second)
  /\ snd (addPlannerConfigurationSettings
            (snd (addPlannerConfigurationSettings m group_name first))
            group_name first)
     = snd (addPlannerConfigurationSettings m group_name first).
Proof.
  intros H1 H2.
  repeat first [ rewrite (add_with_type _ _ _ _ H1)
               | rewrite (add_with_type _ _ _ _ H2)
               | progress cbn [snd] ].
  rewrite !assign_assign. split; reflexivity.
Qed.

Lemma add_again_replaces_witness :
  snd (addPlannerConfigurationSettings
         (snd (addPlannerConfigurationSettings
                 [] "panda_arm" MoreSamples.est_settings))
         "panda_arm" (("goal_bias", "0.05") :: MoreSamples.est_settings))
  = snd (addPlannerConfigurationSettings
           [] "panda_arm" (("goal_bias", "0.05") :: MoreSamples.est_settings)).
Proof.
  apply (add_again_replaces [] "panda_arm" "geometric::EST"
           MoreSamples.est_settings
           (("goal_bias", "0.05") :: MoreSamples.est_settings));
    reflexivity.
Defined.

End PlannerConfigFacts.

Module PlannerConfigInvariants.
Import Msgs Execution Ros StdMap StdMapFacts PickAndPlaceHelpers.
Import PlannerConfigFacts.
Local Open Scope string_scope.
Local Open Scope list_scope.

(** X5: a call keeps what holds of a map built by such calls alone: the
    keys stay in strictly increasing order, every entry stays filed under
    its own group[name] with the name being its own setting "type", and
    the number of entries grows by one for a new key and not at all for a
    key the map already has. A call that throws keeps all of it too. *)
Theorem add_keeps_the_map_well_formed
        (m : PlannerConfigurationMap) (group_name : string)
        (setting_map : StdMap.t string) :
  ordered m = true ->
  Forall registered m ->
  let m' := snd (addPlannerConfigurationSettings m group_name setting_map) in
  ordered m' = true
  /\ Forall registered m'
  /\ size m'
     = match find "type" setting_map with
       | None => size m
       | Some type =>
           match find (config_key group_name type) m with
           | Some _ => size m
           | None => S (size m)
           end
       end.
Proof.
  intros Hord Hreg. cbv zeta.
  destruct (find "type" setting_map) as [type|] eqn:Htype.
  - rewrite (add_with_type _ _ _ _ Htype). cbn [snd].
    split; [apply ordered_assign; exact Hord|]. split.
    + apply Forall_forall. intros entry Hin.
      destruct (in_assign _ _ _ _ Hin) as [-> | Hold].
      * split; [reflexivity | exact Htype].
      * exact (proj1 (Forall_forall _ _) Hreg entry Hold).
    + apply size_assign. exact Hord.
  - rewrite (add_without_type _ _ _ Htype).
    cbn [snd]. repeat split; assumption.
Qed.

Lemma add_keeps_the_map_well_formed_witness :
  let m' := snd (addPlannerConfigurationSettings
                   [] "panda_arm" MoreSamples.est_settings) in
  ordered m' = true
  /\ Forall registered m'
  /\ size m' = 1%nat.
Proof.
  apply (add_keeps_the_map_well_formed [] "panda_arm"
           MoreSamples.est_settings); [reflexivity | constructor].
Defined.

End PlannerConfigInvariants.

Module RegistrationFacts.
Import Msgs Execution Ros StdMap StdMapFacts PickAndPlaceHelpers.
Import PlannerConfigFacts.
Local Open Scope string_scope.
Local Open Scope list_scope.

(** X6: when no group name contains '[', the key tells group and type
    apart, so two registrations that differ in group or in type never
    replace one another: after both calls, in either order of lookup, each
    is found with its own settings. (Without the condition two pairs can
    share a key: group "a[b" with type "c" and group "a" with type
    "b[c".) *)
Theorem distinct_registrations_coexist
        (m : PlannerConfigurationMap) (g1 t1 g2 t2 : string)
        (s1 s2 : StdMap.t string) :
  bracket_free g1 = true ->
  bracket_free g2 = true ->
  (g1, t1) <> (g2, t2) ->
  find "type" s1 = Some t1 ->
  find "type" s2 = Some t2 ->
  config_key g1 t1 <> config_key g2 t2
  /\ find (config_key g1 t1)
          (snd (addPlannerConfigurationSettings
                  (snd (addPlannerConfigurationSettings m g1 s1)) g2 s2))
     = Some (mkSettings g1 t1 s1)
  /\ find (config_key g2 t2)
          (snd (addPlannerConfigurationSettings
                  (snd (addPlannerConfigurationSettings m g1 s1)) g2 s2))
     = Some (mkSettings g2 t2 s2)
  /\ config_key "a[b" "c" = config_key "a" "b[c".
Proof.
  intros Hg1 Hg2 Hdiff H1 H2.
  assert (Hkeys : config_key g1 t1 <> config_key g2 t2).
  { intros Heq. apply Hdiff.
    destruct (config_key_inj _ _ _ _ Hg1 Hg2 Heq) as [-> ->]. reflexivity. }
  split; [exact Hkeys|].
  rewrite (add_with_type _ _ _ _ H1). cbn [snd].
  rewrite (add_with_type _ _ _ _ H2). cbn [snd].
  split; [|split; [|reflexivity]].
  - rewrite find_assign_other by exact Hkeys. apply find_assign_same.
  - apply find_assign_same.
Qed.

Lemma distinct_registrations_coexist_witness :
  find (config_key "panda_arm" "geometric::EST")
       (snd (addPlannerConfigurationSettings
               (snd (addPlannerConfigurationSettings
                       [] "panda_arm" MoreSamples.est_settings))
               "hand" MoreSamples.est_settings))
  = Some (mkSettings "panda_arm" "geometric::EST" MoreSamples.est_settings).
Proof.
  apply (distinct_registrations_coexist [] "panda_arm" "geometric::EST"
           "hand" "geometric::EST"
           MoreSamples.est_settings MoreSamples.est_settings);
    try reflexivity.
  discriminate.
Defined.

End RegistrationFacts.

(** ** The two printers *)

Module PrinterFacts.
Import Msgs Execution Ros StdMap PickAndPlaceHelpers RosFacts.
Local Open Scope string_scope.
Local Open Scope list_scope.

Lemma logging_logging (w : World) (l1 l2 : list Event) :
  logging (logging w l1) l2 = logging w (l1 ++ l2).
Proof. unfold logging. simpl. rewrite app_assoc. reflexivity. Qed.

Lemma logging_nil (w : World) : logging w [] = w.
Proof. destruct w. unfold logging. simpl. rewrite app_nil_r. reflexivity. Qed.

Lemma emit_logging (e : Event) (w : World) : emit e w = (tt, logging w [e]).
Proof. destruct w. reflexivity. Qed.

(** A loop whose body only writes: the loop writes what the bodies write,
    one after the other. *)
Lemma for_each_logging {A : Type} (body : A -> M unit)
      (lines : A -> list Event) (l : list A) :
  (forall a w, body a w = (tt, logging w (lines a))) ->
  forall w, for_each l body w = (tt, logging w (flat_map lines l)).
Proof.
  intros Hbody. induction l as [|a l IH]; intros w; simpl.
  - unfold ret. rewrite logging_nil. reflexivity.
  - unfold bind. rewrite Hbody, IH, logging_logging. reflexivity.
Qed.

Lemma config_body (config : string * PlannerConfigurationSettings)
      (w : World) :
  bind (emit (ELog Info "Map Name: %s" [ArgStr (c_str (fst config))]))
       (fun _ =>
        bind (emit (ELog Info (tab ++ "Group: %s")%string
                         [ArgStr (c_str (pcs_group (snd config)))]))
       (fun _ =>
        bind (emit (ELog Info (tab ++ "Name: %s")%string
                         [ArgStr (c_str (pcs_name (snd config)))]))
       (fun _ =>
        for_each (pcs_config (snd config))
          (fun setting =>
             bind (emit (ELog Info (tab ++ tab ++ "Setting: %s")%string
                              [ArgStr (c_str (fst setting))]))
                  (fun _ =>
                   emit (ELog Info (tab ++ tab ++ "Value: %s")%string
                              [ArgStr (c_str (snd setting))])))))) w
  = (tt, logging w (config_lines config)).
Proof.
  unfold bind at 1 2 3. rewrite !emit_logging.
  rewrite (for_each_logging _ setting_lines).
  - rewrite !logging_logging. reflexivity.
  - intros setting w'. unfold bind. rewrite !emit_logging, logging_logging.
    reflexivity.
Qed.

Lemma config_lines_length (config : string * PlannerConfigurationSettings) :
  List.length (config_lines config)
  = (3 + 2 * size (pcs_config (snd config)))%nat.
Proof.
  unfold config_lines, size. rewrite length_app. cbn [List.length].
  assert (H : forall l, List.length (flat_map setting_lines l)
                        = (2 * List.length l)%nat).
  { induction l as [|s l IH]; [reflexivity|].
    cbn [flat_map]. rewrite length_app, IH. cbn [setting_lines List.length].
    lia. }
  rewrite H. lia.
Qed.

Lemma c_str_nul_free (s : string) : nul_free s = true -> c_str s = s.
Proof.
  induction s as [|c s IH]; simpl; [reflexivity|].
  destruct (Ascii.eqb c Ascii.zero); simpl; [discriminate|].
  intros H. rewrite (IH H). reflexivity.
Qed.

Lemma c_str_is_nul_free (s : string) : nul_free (c_str s) = true.
Proof.
  induction s as [|c s IH]; simpl; [reflexivity|].
  destruct (Ascii.eqb c Ascii.zero) eqn:Hc; simpl; [reflexivity|].
  rewrite Hc, IH. reflexivity.
Qed.

(** X7: [printPlannerConfigMap] writes, for every entry in the order of
    the keys, the key, the group and the name and then each setting with
    its value: three lines for the entry and two for each of its
    settings, all of them log lines at level Info. Every string goes
    through [c_str()] and [%s], so the log shows it up to its first NUL:
    the keys read back from the log are the keys of the map cut there, in
    the map's order, and a string without a NUL is shown whole. The call
    changes nothing else in the world. *)
Theorem printPlannerConfigMap_lists_every_entry
        (m : PlannerConfigurationMap) (w : World) :
  printPlannerConfigMap m w = (tt, logging w (flat_map config_lines m))
  /\ List.length (flat_map config_lines m)
     = (3 * size m
        + 2 * list_sum (map (fun c => size (pcs_config (snd c))) m))%nat
  /\ Forall (fun e => exists format text,
                        e = ELog Info format [ArgStr text]
                        /\ nul_free text = true)
            (flat_map config_lines m)
  /\ map (fun c => c_str (fst c)) m
     = flat_map (fun e => match e with
                          | ELog _ "Map Name: %s" [ArgStr key] => [key]
                          | _ => []
                          end)
                (flat_map config_lines m)
  /\ (forall s, nul_free s = true -> c_str s = s).
Proof.
  split; [|split; [|split; [|split]]].
  - unfold printPlannerConfigMap. apply for_each_logging.
    intros config w'. apply config_body.
  - unfold size. induction m as [|c m IH]; [reflexivity|].
    cbn [flat_map map list_sum fold_right List.length].
    rewrite length_app, config_lines_length, IH. unfold size, list_sum. lia.
  - apply Forall_flat_map. apply Forall_forall. intros c _.
    unfold config_lines. apply Forall_app. split.
    + repeat constructor; eexists; eexists;
        (split; [reflexivity | apply c_str_is_nul_free]).
    + apply Forall_flat_map. apply Forall_forall. intros s _.
      repeat constructor; eexists; eexists;
        (split; [reflexivity | apply c_str_is_nul_free]).
  - induction m as [|c m IH]; [reflexivity|].
    cbn [flat_map map]. rewrite flat_map_app. rewrite <- IH.
    unfold config_lines. rewrite flat_map_app.
    assert (Hs : flat_map
                   (fun e => match e with
                             | ELog _ "Map Name: %s" [ArgStr key] => [key]
                             | _ => []
                             end)
                   (flat_map setting_lines (pcs_config (snd c))) = []).
    { induction (pcs_config (snd c)) as [|s l IHl]; [reflexivity|].
      cbn [flat_map]. rewrite flat_map_app, IHl. reflexivity. }
    rewrite Hs. reflexivity.
  - apply c_str_nul_free.
Qed.

End PrinterFacts.

Module TrajectoryPrinterFacts.
Import Msgs Execution Ros PickAndPlaceHelpers RosFacts PrinterFacts.
Local Open Scope string_scope.
Local Open Scope list_scope.

Lemma for_each_checked_emit {A : Type} (f : A -> Event) (l : list A) :
  forall w,
    for_each_checked l (fun a => lift (emit (f a))) w
    = Some (tt, logging w (map f l)).
Proof.
  induction l as [|a l IH]; intros w; simpl.
  - unfold lift, ret. rewrite logging_nil. reflexivity.
  - unfold bindO, lift at 1. rewrite emit_logging, IH, logging_logging.
    reflexivity.
Qed.

Lemma bindO_emit {B : Type} (e : Event) (k : unit -> MO B) (w : World) :
  bindO (lift (emit e)) k w = k tt (logging w [e]).
Proof. unfold bindO, lift. rewrite emit_logging. reflexivity. Qed.

Lemma int_for_emit {A : Type} (f : A -> Event) (l : list A) (w : World) :
  int_for l (fun a => lift (emit (f a))) w
  = if fits_int l then Some (tt, logging w (map f l)) else None.
Proof.
  unfold int_for, fits_int. destruct (_ <=? _)%Z; [|reflexivity].
  apply for_each_checked_emit.
Qed.

Lemma bindO_int_for_emit {A B : Type} (f : A -> Event) (l : list A)
      (k : unit -> MO B) (w : World) :
  bindO (int_for l (fun a => lift (emit (f a)))) k w
  = if fits_int l then k tt (logging w (map f l)) else None.
Proof.
  unfold bindO. rewrite int_for_emit. destruct (fits_int l); reflexivity.
Qed.

Lemma point_body (show : float -> string) (p : JointTrajectoryPoint)
      (w : World) :
  bindO (lift (emit (EStdout (endl ++ "positions" ++ endl)%string)))
    (fun _ =>
     bindO (int_for (positions p)
              (fun x => lift (emit (EStdout (show x ++ " ")%string))))
    (fun _ =>
     bindO (lift (emit (EStdout (endl ++ "velocities" ++ endl)%string)))
    (fun _ =>
     bindO (int_for (velocities p)
              (fun x => lift (emit (EStdout (show x ++ " ")%string))))
    (fun _ =>
     bindO (lift (emit (EStdout (endl ++ "accelerations" ++ endl)%string)))
    (fun _ =>
     bindO (int_for (accelerations p)
              (fun x => lift (emit (EStdout (show x ++ " ")%string))))
    (fun _ =>
     bindO (lift (emit (EStdout (endl ++ "effort" ++ endl)%string)))
    (fun _ =>
     int_for (effort p)
       (fun x => lift (emit (EStdout (show x ++ " ")%string)))))))))) w
  = if point_fits p then Some (tt, logging w (point_lines show p)) else None.
Proof.
  unfold point_fits, point_lines, doubles_written.
  rewrite bindO_emit, bindO_int_for_emit.
  destruct (fits_int (positions p)); [|reflexivity].
  rewrite bindO_emit, bindO_int_for_emit.
  destruct (fits_int (velocities p)); [|reflexivity].
  rewrite bindO_emit, bindO_int_for_emit.
  destruct (fits_int (accelerations p)); [|reflexivity].
  rewrite bindO_emit, int_for_emit.
  destruct (fits_int (effort p)); [|reflexivity].
  rewrite !logging_logging. repeat rewrite <- app_assoc. reflexivity.
Qed.

Lemma points_loop (body : JointTrajectoryPoint -> MO unit)
      (show : float -> string) (l : list JointTrajectoryPoint) :
  (forall p w, body p w
               = if point_fits p
                 then Some (tt, logging w (point_lines show p)) else None) ->
  forall w,
    for_each_checked l body w
    = if forallb point_fits l
      then Some (tt, logging w (flat_map (point_lines show) l))
      else None.
Proof.
  intros Hbody. induction l as [|p l IH]; intros w; simpl.
  - unfold lift, ret. rewrite logging_nil. reflexivity.
  - unfold bindO. rewrite Hbody. destruct (point_fits p); [|reflexivity].
    simpl. rewrite IH. destruct (forallb point_fits l); [|reflexivity].
    rewrite logging_logging. reflexivity.
Qed.

(** X8: when every sequence of the trajectory can be counted by an [int],
    [printJointTrajectory] writes the two counts, every joint name, and
    for every point in turn its positions, velocities, accelerations and
    effort, each under its heading and in their order, and leaves the rest
    of the world alone. When some sequence has more than [INT_MAX]
    elements the [int] counter of its loop overflows and the behaviour is
    undefined. *)
Theorem printJointTrajectory_writes_every_point_in_order
        (show : float -> string) (jt : JointTrajectory) (w : World) :
  printJointTrajectory show jt w
  = if countable jt
    then Some (tt, logging w (trajectory_lines show jt))
    else None.
Proof.
  unfold printJointTrajectory, countable, trajectory_lines.
  rewrite !bindO_emit, bindO_int_for_emit.
  destruct (fits_int (joint_names jt)); [|reflexivity].
  unfold int_for. fold (fits_int (points jt)).
  destruct (fits_int (points jt)); [|reflexivity].
  rewrite (points_loop _ show).
  - destruct (forallb point_fits (points jt)); [|reflexivity].
    simpl andb. cbv iota. rewrite !logging_logging.
    repeat rewrite <- app_assoc. reflexivity.
  - intros p w'. apply point_body.
Qed.

End TrajectoryPrinterFacts.

(** ** The vectors of [getVector], all together *)

Module ColumnsFacts.
Import Eigen EigenFacts ManipulabilityMeasures ManipulabilityMeasuresFacts.
Import MoreSamples.

(** Cutting a list of [3 * n] elements into [n] runs of three and putting
    the runs back together gives the list. *)
Lemma runs_of_three {A : Type} (n : nat) :
  forall data : list A,
    List.length data = (3 * n)%nat ->
    flat_map (fun i => firstn 3 (skipn (3 * i) data)) (seq 0 n) = data.
Proof.
  induction n as [|n IH]; intros data Hlen.
  - destruct data; [reflexivity | discriminate].
  - cbn [seq flat_map]. rewrite <- seq_shift, flat_map_concat_map, map_map.
    rewrite <- flat_map_concat_map.
    rewrite (flat_map_ext _ (fun i => firstn 3 (skipn (3 * i) (skipn 3 data)))).
    + rewrite IH by (rewrite length_skipn; lia).
      change (skipn (3 * 0) data) with data. apply firstn_skipn.
    + intros i. rewrite skipn_skipn. f_equal. f_equal. lia.
Qed.

Lemma flat_map_ext_in {A B : Type} (f g : A -> list B) (l : list A) :
  (forall a, In a l -> f a = g a) -> flat_map f l = flat_map g l.
Proof.
  induction l as [|a l IH]; intros H; [reflexivity|].
  cbn [flat_map]. rewrite (H a) by (left; reflexivity).
  rewrite IH; [reflexivity|]. intros b Hb. apply H. right. exact Hb.
Qed.

(** X1: on a matrix of three rows nothing of [eigen_vectors] is lost or
    reordered by reading it through [getVector]: the coefficients of
    [getVector 0], [getVector 1], ... up to the last column, one vector
    after the other, are the storage of the matrix. *)
Theorem getVector_columns_rebuild_the_matrix (self : t) :
  wf (eigen_vectors self) ->
  m_rows (eigen_vectors self) = 3 ->
  flat_map (fun i => match getVector self (Z.of_nat i) with
                     | Some (v, _) => coefficients v
                     | None => []
                     end)
           (seq 0 (Z.to_nat (m_cols (eigen_vectors self))))
  = m_data (eigen_vectors self).
Proof.
  intros Hwf Hrows.
  rewrite (flat_map_ext_in _
             (fun i => firstn 3 (skipn (3 * i) (m_data (eigen_vectors self))))).
  - apply runs_of_three. destruct Hwf as (_ & Hc & _ & Hlen).
    apply Nat2Z.inj. rewrite Hlen, Hrows. lia.
  - intros i Hi. apply in_seq in Hi.
    assert (Hcol : 0 <= Z.of_nat i < m_cols (eigen_vectors self)) by lia.
    destruct (getVector_reads_column self (Z.of_nat i) Hwf) as
        (a & b & c & rest & Hcolumn & Hget); [lia | exact Hcol |].
    rewrite Hget. unfold coefficients. cbn [v_x v_y v_z].
    pose proof (column_length _ _ Hwf Hcol) as Hlen.
    rewrite Hcolumn, Hrows in Hlen. destruct rest; [|discriminate].
    rewrite <- Hcolumn. unfold column. rewrite Hrows.
    f_equal. f_equal. lia.
Qed.

Lemma getVector_columns_rebuild_the_matrix_witness :
  flat_map (fun i => match getVector sample (Z.of_nat i) with
                     | Some (v, _) => coefficients v
                     | None => []
                     end)
           (seq 0 (Z.to_nat (m_cols (eigen_vectors sample))))
  = m_data (eigen_vectors sample).
Proof.
  apply (getVector_columns_rebuild_the_matrix sample sample_wf).
  reflexivity.
Defined.

End ColumnsFacts.

(** ** Exit codes and prompts *)

Module ExitFacts.
Import Msgs Execution Ros Trace MoreSamples.
Import PickAndPlaceFacts PlanAndExecuteFacts.
Local Open Scope list_scope.


(** X10: the answer at the second prompt of plan_and_execute decides
    nothing. With the other answer the run returns the same code and does
    the same things in the same order; only the answer noted with the
    prompt differs. *)
Theorem second_prompt_answer_is_ignored (tenv : T.Env) (answer : bool) :
  fst (T.main (with_second_answer tenv answer) boot) = fst (T.main tenv boot)
  /\ filter (fun e => negb (is_prompt e))
            (log (snd (T.main (with_second_answer tenv answer) boot)))
     = filter (fun e => negb (is_prompt e)) (log (snd (T.main tenv boot)))
  /\ map is_prompt (log (snd (T.main (with_second_answer tenv answer) boot)))
     = map is_prompt (log (snd (T.main tenv boot)))
  /\ exec_status (snd (T.main (with_second_answer tenv answer) boot))
     = exec_status (snd (T.main tenv boot)).
Proof.
  set (tenv' := with_second_answer tenv answer).
  assert (Hreq : T.build_request tenv' = T.build_request tenv) by reflexivity.
  assert (Hres : TT.plan_result tenv' = TT.plan_result tenv) by reflexivity.
  destruct (T.promptUserInput tenv 0) eqn:Hprompt.
  - destruct (Z.eq_dec (TT.plan_code tenv) (T.SUCCESS tenv)) as [Hok | Hko].
    + rewrite (tacbot_run_success tenv Hprompt Hok).
      rewrite (tacbot_run_success tenv' Hprompt Hok).
      rewrite Hreq, Hres.
      cbv beta iota delta [fst snd log exec_status].
      unfold TT.visualization. rewrite Hreq.
      change (TT.startup tenv') with (TT.startup tenv).
      change (T.raw_plan_resp_ tenv') with (T.raw_plan_resp_ tenv).
      generalize (TT.startup tenv) (TT.planning (T.build_request tenv)).
      intros l1 l2.
      rewrite !filter_app, !map_app. repeat split.
    + rewrite (tacbot_run_failure tenv Hprompt Hko).
      rewrite (tacbot_run_failure tenv' Hprompt Hko).
      rewrite Hreq.
      change (TT.startup tenv') with (TT.startup tenv).
      change (TT.plan_code tenv') with (TT.plan_code tenv).
      repeat split.
  - rewrite (tacbot_run_declined tenv Hprompt).
    rewrite (tacbot_run_declined tenv' Hprompt).
    change (TT.startup tenv') with (TT.startup tenv).
    repeat split.
Qed.

End ExitFacts.
